(** * webpack-hot-server-middleware: a shallow embedding of [src/index.js]

    The middleware keeps two mutable variables, [serverRenderer] and [error],
    refreshed by the handler of the bundler's [done] event and read by the
    request handler.  The embedding models JavaScript values as an inductive
    type, exceptions as the [Throw] side of a result type, the two closure
    variables as an explicit [state] record threaded through the handlers, and
    the external collaborators (stats objects, output file system, module
    loader) as data carried by each build event. *)

From Stdlib Require Import String Ascii List Bool ZArith Lia DecimalString.
Import ListNotations.
Open Scope string_scope.

(** ** Exceptions *)

Module Completion.

(** A JavaScript expression either produces a value or throws one. *)
Inductive result (E A : Type) : Type :=
| Ok (a : A)
| Throw (e : E).
Arguments Ok {E A} a.
Arguments Throw {E A} e.

Definition bind {E A B} (m : result E A) (k : A -> result E B) : result E B :=
  match m with
  | Ok a => k a
  | Throw e => Throw e
  end.

End Completion.
Import Completion.

Notation "x <- m ;; k" := (bind m (fun x => k))
  (at level 61, m at next level, right associativity).

(** ** First-order JavaScript values

    Everything the program handles that is not callable: the stats JSON, the
    option bag, compilation errors and thrown values.  Numbers are the
    integers that JavaScript prints in plain decimal, of magnitude below
    [10^21]; [VError name message] is an instance of [Error] or of
    one of its subclasses.  Objects are association lists in property order;
    a lookup takes the first binding of a key. *)

#[warnings="-register-all"]
Inductive value : Type :=
| VUndefined
| VNull
| VBool (b : bool)
| VNum (n : Z)
| VStr (s : string)
| VArr (elems : list value)
| VObj (props : list (string * value))
| VError (name message : string).

Definition TypeError (message : string) : value := VError "TypeError" message.
Definition Error (message : string) : value := VError "Error" message.

Definition is_TypeError (v : value) : Prop := exists m, v = TypeError m.

(** Results of JavaScript expressions: the thrown side is a [value]. *)
Definition js (A : Type) : Type := result value A.

(** [ToBoolean]: the falsy values are [undefined], [null], [false], [0] and
    the empty string. *)
Definition truthy (v : value) : bool :=
  match v with
  | VUndefined | VNull => false
  | VBool b => b
  | VNum n => negb (Z.eqb n 0)
  | VStr s => negb (String.eqb s "")
  | VArr _ | VObj _ | VError _ _ => true
  end.

(** [a || b] on values. *)
Definition js_or (a b : value) : value := if truthy a then a else b.

Definition string_of_Z (n : Z) : string := NilZero.string_of_int (Z.to_int n).

(** [Error.prototype.toString]. *)
Definition error_to_string (name message : string) : string :=
  if String.eqb name "" then message
  else if String.eqb message "" then name
  else name ++ ": " ++ message.

(** [ToString], as applied by [RegExp.prototype.test] to its argument. *)
Fixpoint to_string (v : value) : string :=
  match v with
  | VUndefined => "undefined"
  | VNull => "null"
  | VBool true => "true"
  | VBool false => "false"
  | VNum n => string_of_Z n
  | VStr s => s
  | VArr elems =>
      String.concat ","
        (map (fun x => match x with
                       | VUndefined | VNull => ""
                       | _ => to_string x
                       end) elems)
  | VObj _ => "[object Object]"
  | VError name message => error_to_string name message
  end.

(** Own-property lookup in an object's property list. *)
Fixpoint lookup {A : Type} (k : string) (props : list (string * A)) : option A :=
  match props with
  | [] => None
  | (k', v) :: rest => if String.eqb k' k then Some v else lookup k rest
  end.

(** [v[k]] for a string key.  Reading a property of [undefined] or [null]
    throws; an object yields its own property or [undefined]; an error has
    its [name] and [message]; primitives and arrays have none of the
    properties this program asks for.  Inherited properties of
    [Object.prototype] and the indices and [length] of arrays and strings
    are not modelled: [Object_prototype_members] below lists the keys a
    plain object is read wrongly at. *)
Definition get_prop (v : value) (k : string) : js value :=
  match v with
  | VUndefined =>
      Throw (TypeError ("Cannot read property '" ++ k ++ "' of undefined"))
  | VNull =>
      Throw (TypeError ("Cannot read property '" ++ k ++ "' of null"))
  | VObj props =>
      Ok (match lookup k props with Some x => x | None => VUndefined end)
  | VError name message =>
      Ok (if String.eqb k "name" then VStr name
          else if String.eqb k "message" then VStr message
          else VUndefined)
  | _ => Ok VUndefined
  end.

(** [v === s] against a string literal [s]. *)
Definition strict_eq_str (v : value) (s : string) : bool :=
  match v with
  | VStr s' => String.eqb s' s
  | _ => false
  end.

(** ** [/\.js$/.test] *)

(** [ends_with suf s]: [s] has [suf] as a suffix. *)
Fixpoint ends_with (suf s : string) : bool :=
  String.eqb s suf ||
  match s with
  | EmptyString => false
  | String _ s' => ends_with suf s'
  end.

(** [/\.js$/.test(asset)]: the argument is converted with [ToString], and
    without the multiline flag [$] only matches at the end of the input. *)
Definition test_js (asset : value) : bool := ends_with ".js" (to_string asset).

(** ** [JSON.stringify] *)

Module JSON.

Definition hex_digit (n : nat) : ascii :=
  match n with
  | 0 => "0" | 1 => "1" | 2 => "2" | 3 => "3" | 4 => "4" | 5 => "5"
  | 6 => "6" | 7 => "7" | 8 => "8" | 9 => "9" | 10 => "a" | 11 => "b"
  | 12 => "c" | 13 => "d" | 14 => "e" | _ => "f"
  end%char.

(** The escape of one character inside a JSON string. *)
Definition escape_char (c : ascii) : string :=
  let n := nat_of_ascii c in
  if Nat.eqb n 34 then String (ascii_of_nat 92) (String c "")
  else if Nat.eqb n 92 then "\\"
  else if Nat.eqb n 8 then "\b"
  else if Nat.eqb n 12 then "\f"
  else if Nat.eqb n 10 then "\n"
  else if Nat.eqb n 13 then "\r"
  else if Nat.eqb n 9 then "\t"
  else if Nat.ltb n 32 then
    "\u00" ++ String (hex_digit (n / 16)) (String (hex_digit (n mod 16)) "")
  else String c "".

Fixpoint escape (s : string) : string :=
  match s with
  | EmptyString => ""
  | String c s' => escape_char c ++ escape s'
  end.

Definition quote (s : string) : string :=
  String (ascii_of_nat 34) (escape s ++ String (ascii_of_nat 34) "").

(** [JSON.stringify(v)]; [None] is the [undefined] it returns for
    [undefined] itself.  Inside an array [undefined] prints as [null],
    inside an object the property is left out; an [Error] has no own
    enumerable property. *)
Fixpoint stringify (v : value) : option string :=
  match v with
  | VUndefined => None
  | VNull => Some "null"
  | VBool true => Some "true"
  | VBool false => Some "false"
  | VNum n => Some (string_of_Z n)
  | VStr s => Some (quote s)
  | VArr elems =>
      Some ("[" ++
            String.concat ","
              (map (fun x => match stringify x with
                             | Some s => s
                             | None => "null"
                             end) elems)
            ++ "]")
  | VObj props =>
      Some ("{" ++
            String.concat ","
              (flat_map (fun kv => match stringify (snd kv) with
                                   | Some s => [quote (fst kv) ++ ":" ++ s]
                                   | None => []
                                   end) props)
            ++ "}")
  | VError _ _ => Some "{}"
  end.

End JSON.

(** ** [path.join] (POSIX flavour of Node's [path] module) *)

Module path.

Definition slash : ascii := "/"%char.

(** [s.split('/')], with the segment being read kept in [cur]. *)
Fixpoint split_from (cur s : string) : list string :=
  match s with
  | EmptyString => [cur]
  | String c s' =>
      if Ascii.eqb c slash then cur :: split_from "" s'
      else split_from (cur ++ String c "") s'
  end.

Definition split (s : string) : list string := split_from "" s.

(** Node's [normalizeString]: empty and [.] segments are dropped, [..]
    removes the segment before it, and is kept only where
    [allowAboveRoot] and nothing is left to remove.  [acc] holds the
    segments kept so far, last first. *)
Fixpoint normalize_segments (allowAboveRoot : bool)
    (segs acc : list string) : list string :=
  match segs with
  | [] => rev acc
  | seg :: rest =>
      if String.eqb seg "" || String.eqb seg "." then
        normalize_segments allowAboveRoot rest acc
      else if String.eqb seg ".." then
        match acc with
        | top :: acc' =>
            if String.eqb top ".." then
              normalize_segments allowAboveRoot rest
                (if allowAboveRoot then ".." :: acc else acc)
            else normalize_segments allowAboveRoot rest acc'
        | [] =>
            normalize_segments allowAboveRoot rest
              (if allowAboveRoot then [".."] else [])
        end
      else normalize_segments allowAboveRoot rest (seg :: acc)
  end.

Definition starts_with_slash (s : string) : bool :=
  match s with
  | String c _ => Ascii.eqb c slash
  | EmptyString => false
  end.

Fixpoint ends_with_slash (s : string) : bool :=
  match s with
  | EmptyString => false
  | String c EmptyString => Ascii.eqb c slash
  | String _ s' => ends_with_slash s'
  end.

(** [path.normalize]. *)
Definition normalize (p : string) : string :=
  if String.eqb p "" then "."
  else
    let isAbsolute := starts_with_slash p in
    let trailingSeparator := ends_with_slash p in
    let body :=
      String.concat "/" (normalize_segments (negb isAbsolute) (split p) []) in
    let body :=
      if String.eqb body "" && negb isAbsolute then "." else body in
    let body :=
      if negb (String.eqb body "") && trailingSeparator
      then body ++ "/" else body in
    if isAbsolute then "/" ++ body else body.

(** Every argument must be a string; the first that is not makes
    [path.join] throw a [TypeError]. *)
Fixpoint assert_paths (args : list value) : js (list string) :=
  match args with
  | [] => Ok []
  | VStr s :: rest => ss <- assert_paths rest ;; Ok (s :: ss)
  | _ :: _ => Throw (TypeError "Path must be a string")
  end.

(** [path.join(...args)]: the non-empty arguments joined by [/], then
    normalized; [.] when nothing is left. *)
Definition join (args : list value) : js string :=
  ss <- assert_paths args ;;
  match filter (fun s => negb (String.eqb s "")) ss with
  | [] => Ok "."
  | parts => Ok (normalize (String.concat "/" parts))
  end.

End path.

(** ** Callables

    Functions are kept apart from first-order values and stratified by what
    the program does with them: a renderer is applied to
    [(req, res, next)], a factory to the client stats JSON. *)

Record request : Type := { url : string }.

(** What a renderer or the middleware does with [res] and [next]. *)
Inductive effect : Type :=
| ResEnd (chunk : option string)   (* res.end(chunk) *)
| CallNext (arg : value)           (* next(arg); next() is next(undefined) *)
| Raise (e : value).               (* an exception leaves the handler *)

Definition renderer_fn : Type := request -> list effect.

(** What a factory returns, and what [serverRenderer] holds. *)
Inductive rvalue : Type :=
| RData (v : value)
| RFun (f : renderer_fn).

Definition factory_fn : Type := value -> js rvalue.

(** What a loaded module exports: a first-order value, a function, or an
    object some of whose properties are functions. *)
#[warnings="-register-all"]
Inductive mval : Type :=
| MData (v : value)
| MFun (f : factory_fn)
| MObj (props : list (string * mval)).

Definition m_truthy (m : mval) : bool :=
  match m with
  | MData v => truthy v
  | MFun _ | MObj _ => true
  end.

(** [m[k]] where the conditional of [interopRequireDefault] reads it: the
    receiver is truthy there, so the read does not throw. *)
Definition m_get (m : mval) (k : string) : mval :=
  match m with
  | MData v =>
      match get_prop v k with
      | Ok x => MData x
      | Throw _ => MData VUndefined
      end
  | MFun _ => MData VUndefined
  | MObj props =>
      match lookup k props with
      | Some x => x
      | None => MData VUndefined
      end
  end.

(** [f(arg)]: calling what is not a function throws a [TypeError]. *)
Definition m_call (m : mval) (arg : value) : js rvalue :=
  match m with
  | MFun f => f arg
  | _ => Throw (TypeError "interopRequireDefault(...) is not a function")
  end.

(** ** The program *)

(** [const DEFAULTS = { chunkName: 'main' }] *)
Definition DEFAULTS : list (string * value) := [("chunkName", VStr "main")].

(** [obj && obj.__esModule ? obj.default : obj] *)
Definition interopRequireDefault (obj : mval) : mval :=
  if m_truthy obj && m_truthy (m_get obj "__esModule")
  then m_get obj "default"
  else obj.

(** A compiler of the multi-compiler, with the fields the program reads. *)
Record Compiler : Type := {
  name : value;
  outputPath : value
}.

(** A [Stats] object: [stats.compilation.name], [stats.compilation.errors]
    and the object [stats.toJson()] returns. *)
Record Stats : Type := {
  compilation_name : value;
  compilation_errors : list value;
  toJson : value
}.

Record MultiStats : Type := { stats : list Stats }.

(** [multiStats.stats.find(stats => stats.compilation.name === name)];
    [None] is the [undefined] of an unsuccessful [find]. *)
Definition findStats (multiStats : MultiStats) (n : string) : option Stats :=
  find (fun st => strict_eq_str (compilation_name st) n) (stats multiStats).

(** [filename.find(asset => /\.js$/.test(asset))] *)
Definition find_js (filename : list value) : value :=
  match find test_js filename with
  | Some asset => asset
  | None => VUndefined
  end.

Definition getChunkFilename (st : Stats) (outputPath chunkName : value)
  : js string :=
  assetsByChunkName <- get_prop (toJson st) "assetsByChunkName" ;;
  entry <- get_prop assetsByChunkName (to_string chunkName) ;;
  let filename := js_or entry (VStr "") in
  path.join [outputPath;
             match filename with
             | VArr assets => find_js assets
             | _ => filename
             end].

(** *** Construction *)

(** The constructor function an object was made by, as far as
    [instanceof MultiCompiler] can tell. *)
Inductive class : Type := MultiCompiler | OtherClass.

(** The first argument of [webpackHotServerMiddleware]: either a
    first-order value (a primitive, or an object without methods), or an
    object with a [compilers] array, a [plugin] method and a class. *)
Inductive controller : Type :=
| ArgValue (v : value)
| ArgController (cls : class) (compilers : list Compiler).

Definition instanceof_MultiCompiler (x : controller) : bool :=
  match x with
  | ArgController MultiCompiler _ => true
  | _ => false
  end.

(** [!x], a boolean primitive. *)
Definition js_not (x : controller) : controller :=
  ArgValue (VBool (negb match x with
                        | ArgValue v => truthy v
                        | ArgController _ _ => true
                        end)).

(** [!multiCompiler instanceof MultiCompiler]: the unary [!] binds tighter
    than [instanceof]. *)
Definition guard (multiCompiler : controller) : bool :=
  instanceof_MultiCompiler (js_not multiCompiler).

(** [Object.assign({}, DEFAULTS, options)], as far as [chunkName] goes: the
    own properties of an object override the defaults, any other [options]
    leaves them as they are. *)
Definition assign_options (options : value) : list (string * value) :=
  match options with
  | VObj props => props ++ DEFAULTS
  | _ => DEFAULTS
  end.

Definition option_chunkName (options : list (string * value)) : value :=
  match lookup "chunkName" options with
  | Some v => v
  | None => VUndefined
  end.

(** [find(compiler => compiler.name === name)] over an array of first-order
    values; reading [name] of an [undefined] or [null] element throws. *)
Fixpoint find_named (elems : list value) (n : string) : js (option value) :=
  match elems with
  | [] => Ok None
  | c :: rest =>
      nm <- get_prop c "name" ;;
      if strict_eq_str nm n then Ok (Some c) else find_named rest n
  end.

(** What the constructor keeps of the compiler it found: the compiler
    itself, or the array element that passed for one. *)
Inductive found : Type :=
| FoundCompiler (c : Compiler)
| FoundValue (v : value).

(** [multiCompiler.compilers.find(compiler => compiler.name === name)] *)
Definition findCompiler (multiCompiler : controller) (n : string)
  : js (option found) :=
  match multiCompiler with
  | ArgController _ compilers =>
      Ok (option_map FoundCompiler
            (find (fun c => strict_eq_str (name c) n) compilers))
  | ArgValue v =>
      compilers <- get_prop v "compilers" ;;
      match compilers with
      | VArr elems => r <- find_named elems n ;; Ok (option_map FoundValue r)
      | VUndefined | VNull =>
          Throw (TypeError "Cannot read property 'find' of undefined")
      | _ => Throw (TypeError "multiCompiler.compilers.find is not a function")
      end
  end.

(** The closure variables [serverRenderer] and [error]. *)
Record state : Type := {
  serverRenderer : rvalue;
  error : value
}.

(** [let serverRenderer; let error = false;] *)
Definition initial : state :=
  {| serverRenderer := RData VUndefined; error := VBool false |}.

(** What the returned closure has captured besides the two variables. *)
Record config : Type := {
  cfg_outputPath : value;
  cfg_chunkName : value
}.

Record middleware : Type := {
  mw_config : config;
  mw_state : state
}.

Definition missing_both : value :=
  Error "Expected webpack compiler to contain both a `client` and `server` config".
Definition missing_server : value :=
  Error "Expected a webpack compiler named `server`".
Definition missing_client : value :=
  Error "Expected a webpack compiler named `client`".

(** The body of [webpackHotServerMiddleware] up to its [return].  Installing
    the source-map handler changes nothing the middleware reads and is left
    out; a first-order value has no [plugin] method to register the [done]
    handler with. *)
Definition webpackHotServerMiddleware (multiCompiler : controller)
    (options : value) : js middleware :=
  let options := assign_options options in
  if guard multiCompiler then Throw missing_both
  else
    serverCompiler <- findCompiler multiCompiler "server" ;;
    clientCompiler <- findCompiler multiCompiler "client" ;;
    match serverCompiler, clientCompiler with
    | None, _ => Throw missing_server
    | Some _, None => Throw missing_client
    | Some (FoundCompiler c), Some _ =>
        Ok {| mw_config := {| cfg_outputPath := outputPath c;
                              cfg_chunkName := option_chunkName options |};
              mw_state := initial |}
    | Some (FoundValue _), Some _ =>
        Throw (TypeError "multiCompiler.plugin is not a function")
    end.

(** *** The [done] handler *)

(** One firing of the [done] event: the stats of the finished build, and
    the output file system and module loader as they are at that moment. *)
Record build : Type := {
  multi : MultiStats;
  readFileSync : string -> js string;
  requireFromString : string -> string -> js mval
}.

(** The body of the [try] block: read the file, evaluate it, unwrap the
    export and call it with [clientStats.toJson()].  The callee is evaluated
    before the argument, and the call itself comes last. *)
Definition load (b : build) (clientStats : option Stats) (filename : string)
  : js rvalue :=
  data <- readFileSync b filename ;;
  exports <- requireFromString b data filename ;;
  let factory := interopRequireDefault exports in
  arg <- match clientStats with
         | Some st => Ok (toJson st)
         | None => Throw (TypeError "Cannot read property 'toJson' of undefined")
         end ;;
  m_call factory arg.

(** How a call of the handler ends: it returns, or an exception leaves it. *)
Inductive completion : Type :=
| Returned
| Escaped (e : value).

Definition set_error (s : state) (e : value) : state :=
  {| serverRenderer := serverRenderer s; error := e |}.

Definition set_serverRenderer (s : state) (r : rvalue) : state :=
  {| serverRenderer := r; error := error s |}.

(** [multiStats => { ... }], statement by statement. *)
Definition done (cfg : config) (b : build) (s : state) : state * completion :=
  let clientStats := findStats (multi b) "client" in
  match findStats (multi b) "server" with
  | None =>
      (s, Escaped (TypeError "Cannot read property 'compilation' of undefined"))
  | Some serverStats =>
      match compilation_errors serverStats with
      | first :: _ => (set_error s first, Returned)
      | [] =>
          let s := set_error s (VBool false) in
          match getChunkFilename serverStats (cfg_outputPath cfg)
                  (cfg_chunkName cfg) with
          | Throw e => (s, Escaped e)
          | Ok filename =>
              match load b clientStats filename with
              | Ok r => (set_serverRenderer s r, Returned)
              | Throw e => (set_error s e, Returned)
              end
          end
      end
  end.

(** *** The request handler *)

(** Where the returned closure sends a request. *)
Inductive dispatch : Type :=
| ToNext (e : value)        (* return next(error) *)
| ToRenderer (r : rvalue).  (* serverRenderer(req, res, next) *)

(** [(req, res, next) => { ... }] *)
Definition handle (s : state) : dispatch :=
  if truthy (error s) then ToNext (error s)
  else ToRenderer (serverRenderer s).

(** The effects of the dispatch on [res] and [next]. *)
Definition perform (d : dispatch) (req : request) : list effect :=
  match d with
  | ToNext e => [CallNext e]
  | ToRenderer (RFun f) => f req
  | ToRenderer (RData _) => [Raise (TypeError "serverRenderer is not a function")]
  end.

(** *** Runs *)

(** The events a mounted middleware sees, one at a time. *)
Inductive event : Type :=
| Done (b : build)
| Request (req : request).

(** The dispatches of the requests of a run, in order.  An exception that
    leaves the [done] handler does not undo the assignments made before it. *)
Fixpoint run (cfg : config) (events : list event) (s : state) : list dispatch :=
  match events with
  | [] => []
  | Done b :: rest => run cfg rest (fst (done cfg b s))
  | Request _ :: rest => handle s :: run cfg rest s
  end.

(** The state after the builds of a run. *)
Definition after (cfg : config) (builds : list build) (s : state) : state :=
  fold_left (fun s b => fst (done cfg b s)) builds s.

(** *** Source-map support *)

(** The object handed to [sourceMapSupport.install]. *)
Record install_options : Type := {
  emptyCacheBetweenOperations : bool;
  retrieveSourceMap : value -> js value
}.

(** [installSourceMapSupport(fs)], as the options it installs; [fs] is the
    [readFileSync] of the output file system at the time of the lookup.  The
    template literal converts [source] with [ToString]; the [catch] block is
    empty, so after a failed read the function returns [undefined]. *)
Definition installSourceMapSupport (fs : string -> js string) : install_options :=
  {| emptyCacheBetweenOperations := true;
     retrieveSourceMap := fun source =>
       match
         (data <- fs (to_string source ++ ".map") ;;
          Ok (VObj [("url", source); ("map", VStr data)]))
       with
       | Ok answer => Ok answer
       | Throw _ => Ok VUndefined
       end |}.

(** *** Members that objects inherit *)



(** *** The builds of a run *)

(** The builds among the events of a run, in order. *)
Definition builds_of (events : list event) : list build :=
  flat_map (fun ev => match ev with
                      | Done b => [b]
                      | Request _ => []
                      end) events.

(** ** Predicates on compilers and cycles *)

(** [n] names one of the compilers. *)
Definition has_compiler (compilers : list Compiler) (n : string) : Prop :=
  exists c, In c compilers /\ name c = VStr n.

(** The cycle of build [b] is successful and its factory returns [r]: the
    server build has no error, the entry file is resolved, and reading,
    evaluating and calling it yields [r]. *)
Definition succeeds (cfg : config) (b : build) (r : rvalue) : Prop :=
  exists serverStats filename,
    findStats (multi b) "server" = Some serverStats
    /\ compilation_errors serverStats = []
    /\ getChunkFilename serverStats (cfg_outputPath cfg) (cfg_chunkName cfg)
       = Ok filename
    /\ load b (findStats (multi b) "client") filename = Ok r.

(** The cycle of build [b] fails with [e]: [e] is the first error of the
    server build, or the value thrown while the resolved entry file is
    read, evaluated or called. *)
Definition fails (cfg : config) (b : build) (e : value) : Prop :=
  exists serverStats,
    findStats (multi b) "server" = Some serverStats
    /\ ((exists rest, compilation_errors serverStats = e :: rest)
        \/ (compilation_errors serverStats = []
            /\ exists filename,
                 getChunkFilename serverStats (cfg_outputPath cfg)
                   (cfg_chunkName cfg) = Ok filename
                 /\ load b (findStats (multi b) "client") filename
                    = Throw e)).

(** ** Concrete builds

    The stats, files and modules the statements below are evaluated on. *)

Module Scenario.

(** The double-quote character, for writing JSON texts. *)
Definition dq : string := String (ascii_of_nat 34) "".

(** The text [{"main":"main.js"}]. *)
Definition main_json : string :=
  "{" ++ dq ++ "main" ++ dq ++ ":" ++ dq ++ "main.js" ++ dq ++ "}".

(** The text [{"assetsByChunkName":{"main":"main.js"}}]. *)
Definition stats_json : string :=
  "{" ++ dq ++ "assetsByChunkName" ++ dq ++ ":" ++ main_json ++ "}".

(** [{ main: 'main.js' }] *)
Definition client_manifest : value := VObj [("main", VStr "main.js")].

Definition named (n : string) (errors : list value) (json : value) : Stats :=
  {| compilation_name := VStr n;
     compilation_errors := errors;
     toJson := json |}.

Definition with_manifest (manifest : value) : value :=
  VObj [("assetsByChunkName", manifest)].

(** A server build that emitted a bundle and its source map. *)
Definition server_ok : Stats :=
  named "server" []
    (with_manifest (VObj [("main", VArr [VStr "server.js"; VStr "server.js.map"])])).

(** The same with the source map listed first. *)
Definition server_map_first : Stats :=
  named "server" []
    (with_manifest (VObj [("main", VArr [VStr "server.js.map"; VStr "server.js"])])).

(** A server build whose [main] chunk has no asset ending in [.js]. *)
Definition server_mjs : Stats :=
  named "server" []
    (with_manifest (VObj [("main", VArr [VStr "server.mjs"; VStr "server.mjs.map"])])).

Definition server_failed (errors : list value) : Stats :=
  named "server" errors
    (with_manifest (VObj [("main", VArr [VStr "server.js"; VStr "server.js.map"])])).

(** A client whose [toJson()] is the bare manifest. *)
Definition client_bare : Stats := named "client" [] client_manifest.

(** A client whose [toJson()] holds the manifest under
    [assetsByChunkName], as the server's does. *)
Definition client_full : Stats :=
  named "client" [] (with_manifest client_manifest).

(** [(clientManifest) => (req, res, next) =>
      res.end(JSON.stringify(clientManifest))] *)
Definition echo : factory_fn :=
  fun clientManifest =>
    Ok (RFun (fun _ => [ResEnd (JSON.stringify clientManifest)])).

(** A factory whose renderers answer every request with [body]. *)
Definition constant (body : string) : factory_fn :=
  fun _ => Ok (RFun (fun _ => [ResEnd (Some body)])).

(** An output file system with the single file [/out/server.js]. *)
Definition fs (content : string) (p : string) : js string :=
  if String.eqb p "/out/server.js" then Ok content
  else Throw (Error ("ENOENT: no such file or directory, open '" ++ p ++ "'")).

(** A loader that knows the source texts ["echo"], ["v1"] and ["v2"]. *)
Definition loader (code filename : string) : js mval :=
  if String.eqb code "echo" then Ok (MFun echo)
  else if String.eqb code "v1" then Ok (MFun (constant "one"))
  else if String.eqb code "v2" then
    Ok (MObj [("__esModule", MData (VBool true));
              ("default", MFun (constant "two"))])
  else Throw (VError "SyntaxError" "Unexpected token").

Definition build_of (client server : Stats) (content : string) : build :=
  {| multi := {| stats := [client; server] |};
     readFileSync := fs content;
     requireFromString := loader |}.

Definition cfg : config :=
  {| cfg_outputPath := VStr "/out"; cfg_chunkName := VStr "main" |}.

Definition compilers : list Compiler :=
  [ {| name := VStr "client"; outputPath := VStr "/public" |};
    {| name := VStr "server"; outputPath := VStr "/out" |} ].

Definition req : request := {| url := "/" |}.

End Scenario.

(** * Properties *)

(** Rewrites the first step of a run with the outcome of its build. *)
Ltac step_done H := simpl run; rewrite H; simpl fst.

(** ** Evaluations *)

Example path_join_out_server :
  path.join [VStr "/out"; VStr "server.js"] = Ok "/out/server.js".
Proof. reflexivity. Qed.

Example path_join_empty_segment :
  path.join [VStr "/out/"; VStr ""] = Ok "/out/".
Proof. reflexivity. Qed.

Example path_join_dots :
  path.join [VStr "/a/b/../c/."; VStr "./d//e.js"] = Ok "/a/c/d/e.js".
Proof. reflexivity. Qed.

Example path_join_undefined :
  path.join [VStr "/out"; VUndefined] = Throw (TypeError "Path must be a string").
Proof. reflexivity. Qed.

Example construct_scenario :
  webpackHotServerMiddleware (ArgController MultiCompiler Scenario.compilers)
    VUndefined
  = Ok {| mw_config := Scenario.cfg; mw_state := initial |}.
Proof. reflexivity. Qed.

Example construct_chunkName_option :
  webpackHotServerMiddleware (ArgController MultiCompiler Scenario.compilers)
    (VObj [("chunkName", VStr "app")])
  = Ok {| mw_config := {| cfg_outputPath := VStr "/out";
                          cfg_chunkName := VStr "app" |};
          mw_state := initial |}.
Proof. reflexivity. Qed.

Example resolve_scenario :
  getChunkFilename Scenario.server_ok (VStr "/out") (VStr "main")
  = Ok "/out/server.js".
Proof. reflexivity. Qed.

Example resolve_absent_chunk :
  getChunkFilename Scenario.server_ok (VStr "/out") (VStr "vendor") = Ok "/out".
Proof. reflexivity. Qed.

Example end_to_end_bare :
  run Scenario.cfg
    [Done (Scenario.build_of Scenario.client_bare Scenario.server_ok "echo");
     Request Scenario.req] initial
  = [ToRenderer (RFun (fun _ => [ResEnd (Some Scenario.main_json)]))].
Proof. reflexivity. Qed.


(** ** Entry-file resolution *)

Section Resolution.

Lemma find_first_match {A : Type} (p : A -> bool) (pre post : list A) (a : A) :
  forallb (fun x => negb (p x)) pre = true ->
  p a = true ->
  find p (pre ++ a :: post) = Some a.
Proof.
  induction pre as [| x pre IH]; simpl; intros Hpre Ha.
  - now rewrite Ha.
  - apply andb_prop in Hpre as [Hx Hpre].
    apply negb_true_iff in Hx. rewrite Hx. now apply IH.
Qed.

Lemma find_js_first (pre post : list value) (a : string) :
  forallb (fun x => negb (test_js x)) pre = true ->
  ends_with ".js" a = true ->
  find_js (pre ++ VStr a :: post) = VStr a.
Proof.
  intros Hpre Ha. unfold find_js.
  now rewrite (find_first_match test_js pre post (VStr a) Hpre Ha).
Qed.

Lemma js_or_string (s : string) : js_or (VStr s) (VStr "") = VStr s.
Proof.
  unfold js_or. simpl. destruct (String.eqb_spec s ""); simpl; congruence.
Qed.

Lemma join_two_strings (dir file : string) :
  dir <> "" -> file <> "" ->
  path.join [VStr dir; VStr file] = Ok (path.normalize (dir ++ "/" ++ file)).
Proof.
  intros Hd Hf. unfold path.join. simpl.
  apply String.eqb_neq in Hd, Hf. rewrite Hd, Hf. simpl.
  reflexivity.
Qed.

End Resolution.

(** C6: whatever the server stats and the chunk name, with [entry] the value
    the asset manifest holds for the chunk: a single filename string is used
    as it is; of a list, the first entry that ends in [.js] is selected; and
    the selected name is joined, with [path.join], to the output directory
    (for non-empty strings, [dir/name] normalized). *)
Theorem getChunkFilename_selects_entry
    (st : Stats) (outputPath chunkName manifest entry : value) :
  get_prop (toJson st) "assetsByChunkName" = Ok manifest ->
  get_prop manifest (to_string chunkName) = Ok entry ->
  (forall s, entry = VStr s ->
     getChunkFilename st outputPath chunkName = path.join [outputPath; VStr s])
  /\
  (forall pre a post,
     entry = VArr (pre ++ VStr a :: post) ->
     forallb (fun x => negb (test_js x)) pre = true ->
     ends_with ".js" a = true ->
     getChunkFilename st outputPath chunkName = path.join [outputPath; VStr a])
  /\
  (forall dir file, dir <> "" -> file <> "" ->
     path.join [VStr dir; VStr file] = Ok (path.normalize (dir ++ "/" ++ file))).
Proof.
  intros Hm He. unfold getChunkFilename. rewrite Hm. simpl. rewrite He. simpl.
  repeat split.
  - intros s ->. now rewrite js_or_string.
  - intros pre a post -> Hpre Ha. unfold js_or. simpl.
    now rewrite find_js_first.
  - apply join_two_strings.
Qed.

Lemma getChunkFilename_selects_entry_witness :
  getChunkFilename Scenario.server_map_first (VStr "/out") (VStr "main")
  = Ok "/out/server.js".
Proof.
  destruct (getChunkFilename_selects_entry Scenario.server_map_first
              (VStr "/out") (VStr "main")
              (VObj [("main", VArr [VStr "server.js.map"; VStr "server.js"])])
              (VArr [VStr "server.js.map"; VStr "server.js"])
              eq_refl eq_refl) as [_ [Hlist _]].
  rewrite (Hlist [VStr "server.js.map"] "server.js" [] eq_refl eq_refl eq_refl).
  reflexivity.
Defined.

(** ** Construction *)

Section Construction.

Lemma strict_eq_str_true (v : value) (n : string) :
  strict_eq_str v n = true <-> v = VStr n.
Proof.
  destruct v; simpl; try (split; [discriminate | intros H; discriminate H]).
  split.
  - intros H. apply String.eqb_eq in H. now subst.
  - intros H. injection H as ->. apply String.eqb_refl.
Qed.

Lemma find_compiler_none (compilers : list Compiler) (n : string) :
  ~ has_compiler compilers n ->
  find (fun c => strict_eq_str (name c) n) compilers = None.
Proof.
  intros Hno.
  destruct (find _ compilers) as [c |] eqn:Hfind; [| reflexivity].
  apply find_some in Hfind as [Hin Heq].
  exfalso. apply Hno. exists c. split; [assumption |].
  now apply strict_eq_str_true.
Qed.

Lemma find_compiler_some (compilers : list Compiler) (n : string) :
  has_compiler compilers n ->
  exists c, find (fun c => strict_eq_str (name c) n) compilers = Some c.
Proof.
  intros [c [Hin Hname]].
  destruct (find _ compilers) as [c' |] eqn:Hfind; [now exists c' |].
  exfalso.
  pose proof (find_none _ _ Hfind c Hin) as Hc. simpl in Hc.
  apply strict_eq_str_true in Hname. congruence.
Qed.

(** The guard of the constructor is [false] on every argument. *)
Lemma guard_is_false (multiCompiler : controller) : guard multiCompiler = false.
Proof. reflexivity. Qed.

Lemma find_named_throws (elems : list value) (n : string) (e : value) :
  find_named elems n = Throw e -> is_TypeError e.
Proof.
  induction elems as [| c rest IH]; simpl; [discriminate |].
  destruct (get_prop c "name") as [nm | e'] eqn:Hget; simpl.
  - destruct (strict_eq_str nm n); [discriminate | exact IH].
  - intros H; injection H as <-.
    destruct c; simpl in Hget; try discriminate;
      injection Hget as <-; eexists; reflexivity.
Qed.

Lemma findCompiler_throws (multiCompiler : controller) (n : string) (e : value) :
  findCompiler multiCompiler n = Throw e -> is_TypeError e.
Proof.
  destruct multiCompiler as [v | cls compilers]; simpl; [| discriminate].
  destruct (get_prop v "compilers") as [c | e'] eqn:Hget; simpl.
  - destruct c; simpl;
      try (intros H; injection H as <-; eexists; reflexivity).
    destruct (find_named elems n) as [r | e'] eqn:Hfind; simpl;
      [discriminate |].
    intros H; injection H as <-. eapply find_named_throws, Hfind.
  - intros H; injection H as <-.
    destruct v; simpl in Hget; try discriminate;
      injection Hget as <-; eexists; reflexivity.
Qed.

End Construction.

(** C7: for a controller with a list of compilers, construction throws the
    missing-[server] error when no compiler is named [server], the
    missing-[client] error when one is named [server] and none [client],
    whatever other compilers there are; with both present it returns the
    middleware, in its initial state. *)
Theorem construction_needs_server_and_client
    (cls : class) (compilers : list Compiler) (options : value) :
  (~ has_compiler compilers "server" ->
   webpackHotServerMiddleware (ArgController cls compilers) options
   = Throw missing_server)
  /\
  (has_compiler compilers "server" -> ~ has_compiler compilers "client" ->
   webpackHotServerMiddleware (ArgController cls compilers) options
   = Throw missing_client)
  /\
  (has_compiler compilers "server" -> has_compiler compilers "client" ->
   exists mw,
     webpackHotServerMiddleware (ArgController cls compilers) options = Ok mw
     /\ mw_state mw = initial).
Proof.
  unfold webpackHotServerMiddleware. rewrite guard_is_false. simpl.
  repeat split.
  - intros Hs. now rewrite (find_compiler_none _ _ Hs).
  - intros Hs Hc. destruct (find_compiler_some _ _ Hs) as [c ->].
    now rewrite (find_compiler_none _ _ Hc).
  - intros Hs Hc. destruct (find_compiler_some _ _ Hs) as [c ->].
    destruct (find_compiler_some _ _ Hc) as [c' ->]. simpl.
    eexists. split; reflexivity.
Qed.

Lemma construction_needs_server_and_client_witness :
  webpackHotServerMiddleware
    (ArgController MultiCompiler
       [ {| name := VStr "client"; outputPath := VStr "/public" |};
         {| name := VStr "legacy"; outputPath := VStr "/legacy" |} ])
    VUndefined
  = Throw missing_server
  /\
  webpackHotServerMiddleware
    (ArgController MultiCompiler
       [ {| name := VStr "server"; outputPath := VStr "/out" |};
         {| name := VUndefined; outputPath := VStr "/tmp" |} ])
    VUndefined
  = Throw missing_client
  /\
  exists mw,
    webpackHotServerMiddleware
      (ArgController MultiCompiler Scenario.compilers) VUndefined = Ok mw
    /\ mw_state mw = initial.
Proof.
  split; [| split].
  - apply construction_needs_server_and_client.
    intros [c [[<- | [<- | []]] Hname]]; discriminate Hname.
  - apply construction_needs_server_and_client.
    + eexists. split; [left; reflexivity | reflexivity].
    + intros [c [[<- | [<- | []]] Hname]]; discriminate Hname.
  - apply construction_needs_server_and_client.
    + eexists. split; [right; left; reflexivity | reflexivity].
    + eexists. split; [left; reflexivity | reflexivity].
Defined.

(** C9, as the code has it: on every argument the guard is [false] and the
    error about a compiler that should contain both configs is never
    thrown; construction throws the missing-[server] error, the
    missing-[client] error or, for an argument that lacks the [compilers]
    array or the [plugin] method, a [TypeError]; a controller with a list of
    compilers only ever gets the first two. *)
Theorem guard_never_fires (multiCompiler : controller) (options : value) :
  guard multiCompiler = false
  /\ webpackHotServerMiddleware multiCompiler options <> Throw missing_both
  /\ (forall e,
        webpackHotServerMiddleware multiCompiler options = Throw e ->
        e = missing_server \/ e = missing_client \/ is_TypeError e)
  /\ (forall cls compilers e,
        multiCompiler = ArgController cls compilers ->
        webpackHotServerMiddleware multiCompiler options = Throw e ->
        e = missing_server \/ e = missing_client).
Proof.
  assert (Hall : forall e,
             webpackHotServerMiddleware multiCompiler options = Throw e ->
             e = missing_server \/ e = missing_client \/ is_TypeError e).
  { intros e. unfold webpackHotServerMiddleware. rewrite guard_is_false.
    destruct (findCompiler multiCompiler "server") as [sc | e1] eqn:Hs; simpl.
    - destruct (findCompiler multiCompiler "client") as [cc | e2] eqn:Hc; simpl.
      + destruct sc as [[c | v] |], cc as [c' |]; intros H;
          try discriminate H; injection H as <-; auto.
        right; right. eexists; reflexivity.
      + intros H; injection H as <-. right; right.
        eapply findCompiler_throws, Hc.
    - intros H; injection H as <-. right; right.
      eapply findCompiler_throws, Hs. }
  split; [apply guard_is_false |].
  split.
  - intros H. destruct (Hall _ H) as [H' | [H' | [m H']]]; discriminate H'.
  - split; [exact Hall |].
    intros cls compilers e -> H.
    destruct (Hall _ H) as [H' | [H' | [m ->]]]; auto.
    exfalso. revert H. unfold webpackHotServerMiddleware.
    rewrite guard_is_false. simpl.
    destruct (find _ compilers); simpl;
      [destruct (find _ compilers); simpl |]; discriminate.
Qed.

Lemma guard_never_fires_witness :
  webpackHotServerMiddleware (ArgValue (VNum 42)) VUndefined
  <> Throw missing_both
  /\ (TypeError "Cannot read property 'find' of undefined" = missing_server
      \/ TypeError "Cannot read property 'find' of undefined" = missing_client
      \/ is_TypeError (TypeError "Cannot read property 'find' of undefined"))
  /\ (missing_client = missing_server \/ missing_client = missing_client).
Proof.
  split; [apply guard_never_fires |].
  split.
  - destruct (guard_never_fires (ArgValue (VNum 42)) VUndefined)
      as [_ [_ [Hall _]]].
    exact (Hall (TypeError "Cannot read property 'find' of undefined") eq_refl).
  - destruct (guard_never_fires
                (ArgController OtherClass
                   [ {| name := VStr "server"; outputPath := VStr "/out" |} ])
                VUndefined) as [_ [_ [_ Hctl]]].
    exact (Hctl OtherClass _ missing_client eq_refl eq_refl).
Defined.

(** C9, counterexample to the claim as stated: constructing from
    [undefined] throws a [TypeError], which is neither the missing-[server]
    nor the missing-[client] error. *)
Lemma construction_from_undefined_throws_TypeError :
  webpackHotServerMiddleware (ArgValue VUndefined) VUndefined
  = Throw (TypeError "Cannot read property 'compilers' of undefined")
  /\ TypeError "Cannot read property 'compilers' of undefined" <> missing_server
  /\ TypeError "Cannot read property 'compilers' of undefined" <> missing_client.
Proof. split; [reflexivity | split; discriminate]. Qed.

(** ** The dispatcher *)

Section Dispatcher.

Variable cfg : config.

Lemma done_build_error (b : build) (s : state) serverStats first rest :
  findStats (multi b) "server" = Some serverStats ->
  compilation_errors serverStats = first :: rest ->
  done cfg b s = (set_error s first, Returned).
Proof. intros Hs He. unfold done. now rewrite Hs, He. Qed.

Lemma done_success (b : build) (s : state) (r : rvalue) :
  succeeds cfg b r ->
  done cfg b s = ({| serverRenderer := r; error := VBool false |}, Returned).
Proof.
  intros (serverStats & filename & Hs & He & Hf & Hl).
  unfold done. now rewrite Hs, He, Hf, Hl.
Qed.

Lemma done_load_failure (b : build) (s : state) serverStats filename e :
  findStats (multi b) "server" = Some serverStats ->
  compilation_errors serverStats = [] ->
  getChunkFilename serverStats (cfg_outputPath cfg) (cfg_chunkName cfg)
  = Ok filename ->
  load b (findStats (multi b) "client") filename = Throw e ->
  done cfg b s = (set_error s e, Returned).
Proof. intros Hs He Hf Hl. unfold done. now rewrite Hs, He, Hf, Hl. Qed.

(** An exception thrown while the entry file is resolved leaves the
    handler, after [error] has been cleared. *)
Lemma done_resolution_failure (b : build) (s : state) serverStats e :
  findStats (multi b) "server" = Some serverStats ->
  compilation_errors serverStats = [] ->
  getChunkFilename serverStats (cfg_outputPath cfg) (cfg_chunkName cfg)
  = Throw e ->
  done cfg b s = (set_error s (VBool false), Escaped e).
Proof. intros Hs He Hf. unfold done. now rewrite Hs, He, Hf. Qed.

Lemma done_failure (b : build) (s : state) (e : value) :
  fails cfg b e -> done cfg b s = (set_error s e, Returned).
Proof.
  intros (serverStats & Hs & [[rest He] | (He & filename & Hf & Hl)]).
  - eapply done_build_error; eassumption.
  - eapply done_load_failure; eassumption.
Qed.

(** Requests do not change the state. *)
Lemma run_requests (reqs : list request) (s : state) :
  run cfg (map Request reqs) s = map (fun _ => handle s) reqs.
Proof. induction reqs as [| r reqs IH]; simpl; congruence. Qed.

Lemma run_requests_app (reqs : list request) (rest : list event) (s : state) :
  run cfg (map Request reqs ++ rest)%list s
  = (map (fun _ => handle s) reqs ++ run cfg rest s)%list.
Proof. induction reqs as [| r reqs IH]; simpl; congruence. Qed.

Lemma run_builds_app (builds : list build) (rest : list event) (s : state) :
  run cfg (map Done builds ++ rest)%list s
  = run cfg rest (after cfg builds s).
Proof.
  revert s. induction builds as [| b builds IH]; intros s; simpl.
  - reflexivity.
  - apply IH.
Qed.

Lemma handle_truthy_error (s : state) :
  truthy (error s) = true -> handle s = ToNext (error s).
Proof. intros H. unfold handle. now rewrite H. Qed.

Lemma handle_falsy_error (s : state) :
  truthy (error s) = false -> handle s = ToRenderer (serverRenderer s).
Proof. intros H. unfold handle. now rewrite H. Qed.

End Dispatcher.

(** C10: when the first error of the server build is falsy, the handler
    records it, and a request arriving after that build is sent to the
    current renderer, the one from before the build, and not to [next]. *)
Theorem falsy_error_reaches_renderer
    (cfg : config) (b : build) (s : state) (serverStats : Stats)
    (first : value) (rest : list value) (req : request) :
  findStats (multi b) "server" = Some serverStats ->
  compilation_errors serverStats = first :: rest ->
  truthy first = false ->
  error (fst (done cfg b s)) = first
  /\ run cfg [Done b; Request req] s = [ToRenderer (serverRenderer s)].
Proof.
  intros Hs He Hfalsy.
  pose proof (done_build_error cfg b s _ _ _ Hs He) as Hdone.
  split.
  - now rewrite Hdone.
  - step_done Hdone. simpl.
    now rewrite handle_falsy_error by exact Hfalsy.
Qed.

Lemma falsy_error_reaches_renderer_witness :
  run Scenario.cfg
    [Done (Scenario.build_of Scenario.client_bare Scenario.server_ok "v1");
     Done (Scenario.build_of Scenario.client_bare
             (Scenario.server_failed [VNum 0; VStr "boom"]) "v1");
     Request Scenario.req] initial
  = [ToRenderer (RFun (fun _ => [ResEnd (Some "one")]))].
Proof.
  simpl run.
  destruct (falsy_error_reaches_renderer Scenario.cfg
              (Scenario.build_of Scenario.client_bare
                 (Scenario.server_failed [VNum 0; VStr "boom"]) "v1")
              (fst (done Scenario.cfg
                      (Scenario.build_of Scenario.client_bare
                         Scenario.server_ok "v1") initial))
              (Scenario.server_failed [VNum 0; VStr "boom"])
              (VNum 0) [VStr "boom"] Scenario.req
              eq_refl eq_refl eq_refl) as [_ Hrun].
  simpl run in Hrun. rewrite Hrun. reflexivity.
Defined.

(** C2, counterexample to the claim as stated: after a successful build,
    a server build has the single error [''], and the request that follows
    is sent to the renderer of the earlier build instead of [next]. *)
Lemma empty_string_error_is_not_forwarded :
  compilation_errors (Scenario.server_failed [VStr ""]) = [VStr ""]
  /\ run Scenario.cfg
       [Done (Scenario.build_of Scenario.client_bare Scenario.server_ok "v1");
        Done (Scenario.build_of Scenario.client_bare
                (Scenario.server_failed [VStr ""]) "v1");
        Request Scenario.req] initial
     = [ToRenderer (RFun (fun _ => [ResEnd (Some "one")]))]
  /\ run Scenario.cfg
       [Done (Scenario.build_of Scenario.client_bare Scenario.server_ok "v1");
        Done (Scenario.build_of Scenario.client_bare
                (Scenario.server_failed [VStr ""]) "v1");
        Request Scenario.req] initial
     <> [ToNext (VStr "")].
Proof. repeat split. discriminate. Qed.

(** C2, as the code has it: when the server build has errors the handler
    sets [error] to the first of them, returns, and leaves [serverRenderer]
    as it was; if that first error is truthy, every request up to the next
    build is passed to [next] with it and none reaches a renderer. *)
Theorem build_error_is_forwarded
    (cfg : config) (b : build) (s : state) (serverStats : Stats)
    (first : value) (rest : list value) :
  findStats (multi b) "server" = Some serverStats ->
  compilation_errors serverStats = first :: rest ->
  done cfg b s
  = ({| serverRenderer := serverRenderer s; error := first |}, Returned)
  /\ (truthy first = true ->
      forall reqs,
        run cfg (Done b :: map Request reqs) s
        = map (fun _ => ToNext first) reqs).
Proof.
  intros Hs He.
  pose proof (done_build_error cfg b s _ _ _ Hs He) as Hdone.
  split; [exact Hdone |].
  intros Htruthy reqs. step_done Hdone.
  rewrite run_requests. apply map_ext. intros _.
  now apply handle_truthy_error.
Qed.

Lemma build_error_is_forwarded_witness :
  run Scenario.cfg
    (Done (Scenario.build_of Scenario.client_bare
             (Scenario.server_failed [VStr "boom"]) "echo")
     :: map Request [Scenario.req; Scenario.req]) initial
  = [ToNext (VStr "boom"); ToNext (VStr "boom")].
Proof.
  destruct (build_error_is_forwarded Scenario.cfg
              (Scenario.build_of Scenario.client_bare
                 (Scenario.server_failed [VStr "boom"]) "echo")
              initial (Scenario.server_failed [VStr "boom"])
              (VStr "boom") [] eq_refl eq_refl) as [_ Hreqs].
  exact (Hreqs eq_refl [Scenario.req; Scenario.req]).
Defined.

(** C8: after two successful cycles whose factories returned [r1] and
    [r2], every request that arrives after the second is sent to [r2];
    [r1] only serves the requests between the two. *)
Theorem second_renderer_replaces_first
    (cfg : config) (b1 b2 : build) (s : state) (r1 r2 : rvalue)
    (between later : list request) :
  succeeds cfg b1 r1 ->
  succeeds cfg b2 r2 ->
  run cfg (Done b1 :: map Request between ++ Done b2 :: map Request later)%list s
  = (map (fun _ => ToRenderer r1) between
     ++ map (fun _ => ToRenderer r2) later)%list.
Proof.
  intros H1 H2.
  step_done (done_success cfg b1 s r1 H1).
  rewrite run_requests_app. f_equal.
  step_done (done_success cfg b2 {| serverRenderer := r1; error := VBool false |}
               r2 H2).
  apply run_requests.
Qed.

Lemma second_renderer_replaces_first_witness :
  map (fun d => perform d Scenario.req)
    (run Scenario.cfg
       [Done (Scenario.build_of Scenario.client_bare Scenario.server_ok "v1");
        Request Scenario.req;
        Done (Scenario.build_of Scenario.client_bare Scenario.server_ok "v2");
        Request Scenario.req; Request Scenario.req] initial)
  = [[ResEnd (Some "one")]; [ResEnd (Some "two")]; [ResEnd (Some "two")]].
Proof.
  assert (H1 : succeeds Scenario.cfg
                 (Scenario.build_of Scenario.client_bare Scenario.server_ok "v1")
                 (RFun (fun _ => [ResEnd (Some "one")]))).
  { exists Scenario.server_ok, "/out/server.js". repeat split. }
  assert (H2 : succeeds Scenario.cfg
                 (Scenario.build_of Scenario.client_bare Scenario.server_ok "v2")
                 (RFun (fun _ => [ResEnd (Some "two")]))).
  { exists Scenario.server_ok, "/out/server.js". repeat split. }
  pose proof (second_renderer_replaces_first _ _ _ initial _ _
                [Scenario.req] [Scenario.req; Scenario.req] H1 H2) as H.
  cbn [map app] in H. rewrite H. reflexivity.
Defined.

(** C5, counterexample to the claim as stated: the client's asset manifest
    is [{main: 'main.js'}], held under [assetsByChunkName] of its stats
    JSON as the server's is; the echoing factory is handed the whole stats
    JSON, and the body of the response is not [{"main":"main.js"}]. *)
Lemma factory_argument_is_not_the_manifest :
  get_prop (toJson Scenario.client_full) "assetsByChunkName"
  = Ok Scenario.client_manifest
  /\ map (fun d => perform d Scenario.req)
       (run Scenario.cfg
          [Done (Scenario.build_of Scenario.client_full Scenario.server_ok "echo");
           Request Scenario.req] initial)
     = [[ResEnd (Some Scenario.stats_json)]]
  /\ Scenario.stats_json <> Scenario.main_json.
Proof. repeat split. discriminate. Qed.

(** C5, as the code has it: on a cycle that gets as far as the call, the
    unwrapped export is called with exactly [clientStats.toJson()], the
    whole stats JSON of the client build, and what it returns becomes
    [serverRenderer]; with the echoing factory a request after the build
    gets the JSON text of that object as its body, which is
    [{"main":"main.js"}] when [toJson()] returns [{main: 'main.js'}]. *)
Theorem factory_receives_client_stats_json
    (cfg : config) (b : build) (s : state) (serverStats clientStats : Stats)
    (filename code : string) (exports : mval) (factory : factory_fn) :
  findStats (multi b) "server" = Some serverStats ->
  compilation_errors serverStats = [] ->
  getChunkFilename serverStats (cfg_outputPath cfg) (cfg_chunkName cfg)
  = Ok filename ->
  findStats (multi b) "client" = Some clientStats ->
  readFileSync b filename = Ok code ->
  requireFromString b code filename = Ok exports ->
  interopRequireDefault exports = MFun factory ->
  done cfg b s
  = match factory (toJson clientStats) with
    | Ok r => ({| serverRenderer := r; error := VBool false |}, Returned)
    | Throw e => ({| serverRenderer := serverRenderer s; error := e |}, Returned)
    end
  /\ (factory = Scenario.echo ->
      forall req,
        map (fun d => perform d req) (run cfg [Done b; Request req] s)
        = [[ResEnd (JSON.stringify (toJson clientStats))]])
  /\ JSON.stringify Scenario.client_manifest = Some Scenario.main_json.
Proof.
  intros Hs He Hf Hc Hread Hreq Hexp.
  assert (Hload : load b (findStats (multi b) "client") filename
                  = factory (toJson clientStats)).
  { unfold load. rewrite Hread. simpl. rewrite Hreq. simpl.
    rewrite Hexp, Hc. reflexivity. }
  assert (Hdone : done cfg b s
                  = match factory (toJson clientStats) with
                    | Ok r => ({| serverRenderer := r; error := VBool false |},
                               Returned)
                    | Throw e => ({| serverRenderer := serverRenderer s;
                                     error := e |}, Returned)
                    end).
  { unfold done. rewrite Hs, He, Hf, Hload.
    destruct (factory (toJson clientStats)); reflexivity. }
  split; [exact Hdone |].
  split; [| reflexivity].
  intros -> req. step_done Hdone. reflexivity.
Qed.

Lemma factory_receives_client_stats_json_witness :
  map (fun d => perform d Scenario.req)
    (run Scenario.cfg
       [Done (Scenario.build_of Scenario.client_bare Scenario.server_ok "echo");
        Request Scenario.req] initial)
  = [[ResEnd (Some Scenario.main_json)]].
Proof.
  destruct (factory_receives_client_stats_json Scenario.cfg
              (Scenario.build_of Scenario.client_bare Scenario.server_ok "echo")
              initial Scenario.server_ok Scenario.client_bare
              "/out/server.js" "echo" (MFun Scenario.echo) Scenario.echo
              eq_refl eq_refl eq_refl eq_refl eq_refl eq_refl eq_refl)
    as [_ [Hecho Hjson]].
  rewrite (Hecho eq_refl Scenario.req).
  change (toJson Scenario.client_bare) with Scenario.client_manifest.
  now rewrite Hjson.
Defined.

(** C1, the code at the failing input: the server build has no error and
    its [main] chunk lists no asset ending in [.js]; [find] yields
    [undefined], [path.join] throws a [TypeError] ahead of the [try] block,
    and the exception leaves the handler with [error] already cleared and
    [serverRenderer] as it was. *)
Theorem resolution_failure_escapes (s : state) :
  compilation_errors Scenario.server_mjs = []
  /\ getChunkFilename Scenario.server_mjs (VStr "/out") (VStr "main")
     = Throw (TypeError "Path must be a string")
  /\ done Scenario.cfg
       (Scenario.build_of Scenario.client_bare Scenario.server_mjs "v2") s
     = ({| serverRenderer := serverRenderer s; error := VBool false |},
        Escaped (TypeError "Path must be a string")).
Proof.
  split; [reflexivity |]. split; [reflexivity |].
  now apply (done_resolution_failure Scenario.cfg _ s Scenario.server_mjs).
Qed.

(** C3, the code at the failing input: a successful build is followed by
    one whose entry file cannot be resolved; the second cycle ends with
    [error] cleared and [serverRenderer] still the renderer of the first
    build, which goes on serving requests. *)
Theorem stale_renderer_without_error :
  let first := Scenario.build_of Scenario.client_bare Scenario.server_ok "v1" in
  let second := Scenario.build_of Scenario.client_bare Scenario.server_mjs "v2" in
  let s1 := fst (done Scenario.cfg first initial) in
  let s2 := fst (done Scenario.cfg second s1) in
  snd (done Scenario.cfg second s1) = Escaped (TypeError "Path must be a string")
  /\ error s2 = VBool false
  /\ serverRenderer s2 = serverRenderer s1
  /\ serverRenderer s1 = RFun (fun _ => [ResEnd (Some "one")])
  /\ map (fun d => perform d Scenario.req)
       (run Scenario.cfg [Done first; Done second; Request Scenario.req] initial)
     = [[ResEnd (Some "one")]].
Proof. repeat split. Qed.

(** C4, counterexample to the claim as stated: a cycle that fails, with a
    build error or with an error caught while loading, does not leave the
    pair untouched: [error] changes. *)
Lemma failed_cycle_sets_error :
  fails Scenario.cfg
    (Scenario.build_of Scenario.client_bare
       (Scenario.server_failed [VStr "boom"]) "echo")
    (VStr "boom")
  /\ fst (done Scenario.cfg
            (Scenario.build_of Scenario.client_bare
               (Scenario.server_failed [VStr "boom"]) "echo") initial)
     <> initial
  /\ fails Scenario.cfg
       (Scenario.build_of Scenario.client_bare Scenario.server_ok "garbage")
       (VError "SyntaxError" "Unexpected token")
  /\ fst (done Scenario.cfg
            (Scenario.build_of Scenario.client_bare Scenario.server_ok "garbage")
            initial)
     <> initial.
Proof.
  split; [| split; [| split]].
  - exists (Scenario.server_failed [VStr "boom"]).
    split; [reflexivity |]. left. now exists [].
  - intros H. apply (f_equal error) in H. discriminate H.
  - exists Scenario.server_ok. split; [reflexivity |]. right.
    split; [reflexivity |]. now exists "/out/server.js".
  - intros H. apply (f_equal error) in H. discriminate H.
Qed.

(** C4, as the code has it: a cycle whose handler returns either succeeds,
    and then leaves the new renderer together with a cleared error, or
    fails, and then leaves [serverRenderer] untouched and [error] set to the
    failure; the requests handled before the cycle are dispatched from the
    state it started from, and the requests handled after it, up to the next
    build, from the state it left: to the new renderer after a success, and
    after a failure to [next] with the failure when it is truthy, to the
    untouched renderer when it is falsy. *)
Theorem returned_cycle_is_complete
    (cfg : config) (b : build) (s s' : state) :
  done cfg b s = (s', Returned) ->
  (exists r,
     succeeds cfg b r
     /\ s' = {| serverRenderer := r; error := VBool false |}
     /\ forall before later,
          run cfg (map Request before ++ Done b :: map Request later)%list s
          = (map (fun _ => handle s) before
             ++ map (fun _ => ToRenderer r) later)%list)
  \/
  (exists e,
     fails cfg b e
     /\ s' = {| serverRenderer := serverRenderer s; error := e |}
     /\ forall before later,
          run cfg (map Request before ++ Done b :: map Request later)%list s
          = (map (fun _ => handle s) before
             ++ map (fun _ => if truthy e then ToNext e
                              else ToRenderer (serverRenderer s)) later)%list).
Proof.
  intros Hdone.
  assert (Hrun : forall before later,
             run cfg (map Request before ++ Done b :: map Request later)%list s
             = (map (fun _ => handle s) before
                ++ map (fun _ => handle s') later)%list).
  { intros before later. rewrite run_requests_app. f_equal.
    step_done Hdone. apply run_requests. }
  unfold done in Hdone.
  destruct (findStats (multi b) "server") as [serverStats |] eqn:Hs;
    [| discriminate Hdone].
  destruct (compilation_errors serverStats) as [| first rest] eqn:He.
  - destruct (getChunkFilename serverStats (cfg_outputPath cfg)
                (cfg_chunkName cfg)) as [filename | e] eqn:Hf;
      [| discriminate Hdone].
    destruct (load b (findStats (multi b) "client") filename)
      as [r | e] eqn:Hl; injection Hdone as <-.
    + left. exists r. split; [| split; [reflexivity |]].
      * exists serverStats, filename. auto.
      * intros before later. now rewrite Hrun.
    + right. exists e. split; [| split; [reflexivity |]].
      * exists serverStats. split; [assumption |]. right.
        split; [assumption |]. now exists filename.
      * intros before later. now rewrite Hrun.
  - injection Hdone as <-. right. exists first.
    split; [| split; [reflexivity |]].
    + exists serverStats. split; [assumption |]. left. now exists rest.
    + intros before later. now rewrite Hrun.
Qed.

Lemma returned_cycle_is_complete_witness :
  (exists r,
     succeeds Scenario.cfg
       (Scenario.build_of Scenario.client_bare
          (Scenario.server_failed [VStr "boom"]) "v1") r
     /\ {| serverRenderer := RFun (fun _ => [ResEnd (Some "one")]);
           error := VStr "boom" |}
        = {| serverRenderer := r; error := VBool false |}
     /\ forall before later,
          run Scenario.cfg
            (map Request before
             ++ Done (Scenario.build_of Scenario.client_bare
                        (Scenario.server_failed [VStr "boom"]) "v1")
                :: map Request later)%list
            {| serverRenderer := RFun (fun _ => [ResEnd (Some "one")]);
               error := VBool false |}
          = (map (fun _ => ToRenderer (RFun (fun _ => [ResEnd (Some "one")])))
               before
             ++ map (fun _ => ToRenderer r) later)%list)
  \/
  (exists e,
     fails Scenario.cfg
       (Scenario.build_of Scenario.client_bare
          (Scenario.server_failed [VStr "boom"]) "v1") e
     /\ {| serverRenderer := RFun (fun _ => [ResEnd (Some "one")]);
           error := VStr "boom" |}
        = {| serverRenderer := RFun (fun _ => [ResEnd (Some "one")]);
             error := e |}
     /\ forall before later,
          run Scenario.cfg
            (map Request before
             ++ Done (Scenario.build_of Scenario.client_bare
                        (Scenario.server_failed [VStr "boom"]) "v1")
                :: map Request later)%list
            {| serverRenderer := RFun (fun _ => [ResEnd (Some "one")]);
               error := VBool false |}
          = (map (fun _ => ToRenderer (RFun (fun _ => [ResEnd (Some "one")])))
               before
             ++ map (fun _ => if truthy e then ToNext e
                              else ToRenderer
                                     (RFun (fun _ => [ResEnd (Some "one")])))
                  later)%list).
Proof.
  exact (returned_cycle_is_complete Scenario.cfg
           (Scenario.build_of Scenario.client_bare
              (Scenario.server_failed [VStr "boom"]) "v1")
           {| serverRenderer := RFun (fun _ => [ResEnd (Some "one")]);
              error := VBool false |}
           {| serverRenderer := RFun (fun _ => [ResEnd (Some "one")]);
              error := VStr "boom" |}
           eq_refl).
Defined.

(** * Further properties of the code *)

(** ** Lists, lookups and thrown values *)

Section Finding.

Context {A : Type} (p : A -> bool).

(** [find] returns the first element that passes the test. *)
Lemma find_some_split (l : list A) (a : A) :
  find p l = Some a ->
  exists pre post,
    l = (pre ++ a :: post)%list
    /\ p a = true
    /\ forall x, In x pre -> p x = false.
Proof.
  induction l as [| x l IH]; simpl; [discriminate |].
  destruct (p x) eqn:Hx.
  - intros H; injection H as <-. exists [], l. repeat split; auto.
    intros y [].
  - intros H. destruct (IH H) as (pre & post & -> & Ha & Hpre).
    exists (x :: pre), post. repeat split; auto.
    intros y [<- | Hy]; auto.
Qed.

Lemma find_none_iff (l : list A) :
  find p l = None <-> forall x, In x l -> p x = false.
Proof.
  split.
  - intros H x Hx. exact (find_none p l H x Hx).
  - intros H. destruct (find p l) as [a |] eqn:Hf; [| reflexivity].
    apply find_some in Hf as [Hin Hp]. rewrite (H a Hin) in Hp. discriminate.
Qed.

Lemma find_skips_prefix (pre post : list A) (a : A) :
  (forall x, In x pre -> p x = false) ->
  p a = true ->
  find p (pre ++ a :: post) = Some a.
Proof.
  induction pre as [| x pre IH]; simpl; intros Hpre Ha.
  - now rewrite Ha.
  - rewrite (Hpre x (or_introl eq_refl)). apply IH; auto.
Qed.

End Finding.

Lemma strict_eq_str_false (v : value) (n : string) :
  strict_eq_str v n = false <-> v <> VStr n.
Proof.
  split.
  - intros H Heq. apply strict_eq_str_true in Heq. congruence.
  - intros H. destruct (strict_eq_str v n) eqn:E; [| reflexivity].
    apply strict_eq_str_true in E. contradiction.
Qed.

Lemma lookup_app {A : Type} (k : string) (l1 l2 : list (string * A)) :
  lookup k (l1 ++ l2)
  = match lookup k l1 with
    | Some v => Some v
    | None => lookup k l2
    end.
Proof.
  induction l1 as [| [k' v] l1 IH]; simpl; [reflexivity |].
  destruct (String.eqb k' k); auto.
Qed.

Lemma get_prop_throws (v : value) (k : string) (e : value) :
  get_prop v k = Throw e -> is_TypeError e.
Proof.
  destruct v; simpl; try discriminate;
    intros H; injection H as <-; eexists; reflexivity.
Qed.

Lemma assert_paths_throws (args : list value) (e : value) :
  path.assert_paths args = Throw e -> e = TypeError "Path must be a string".
Proof.
  induction args as [| a args IH]; simpl; [discriminate |].
  destruct a; try (intros H; injection H as <-; reflexivity).
  destruct (path.assert_paths args) as [ss | e']; simpl; [discriminate |].
  intros H; injection H as <-. now apply IH.
Qed.

Lemma join_throws (args : list value) (e : value) :
  path.join args = Throw e -> e = TypeError "Path must be a string".
Proof.
  unfold path.join.
  destruct (path.assert_paths args) as [ss | e'] eqn:Ha; simpl.
  - destruct (filter _ ss); discriminate.
  - intros H; injection H as <-. now apply assert_paths_throws in Ha.
Qed.

Lemma join_with_undefined (outputPath : value) :
  path.join [outputPath; VUndefined] = Throw (TypeError "Path must be a string").
Proof. destruct outputPath; reflexivity. Qed.

(** ** The test [/\.js$/] *)

Lemma ends_with_spec (suf s : string) :
  ends_with suf s = true <-> exists pre, s = pre ++ suf.
Proof.
  induction s as [| c s IH]; cbn [ends_with].
  - rewrite orb_false_r, String.eqb_eq. split.
    + intros <-. now exists "".
    + intros [pre H]. destruct pre; simpl in H; [now subst | discriminate].
  - rewrite orb_true_iff, String.eqb_eq. split.
    + intros [H | H].
      * exists "". now rewrite H.
      * apply IH in H as [pre ->]. now exists (String c pre).
    + intros [pre H]. destruct pre as [| c' pre]; simpl in H.
      * now left.
      * right. injection H as _ ->. apply IH. now exists pre.
Qed.

Lemma length_append (s1 s2 : string) :
  String.length (s1 ++ s2) = String.length s1 + String.length s2.
Proof. induction s1 as [| c s1 IH]; simpl; congruence. Qed.

(** X1: an asset name passes the test of [getChunkFilename] exactly when it
    ends with the three characters [.js]; in particular the name of a
    source map, [name.js.map], never passes. *)
Theorem test_js_iff_suffix (asset : string) :
  (test_js (VStr asset) = true <-> exists stem, asset = stem ++ ".js")
  /\ test_js (VStr (asset ++ ".js.map")) = false.
Proof.
  split; [apply ends_with_spec |].
  unfold test_js. cbn [to_string].
  induction asset as [| c asset IH]; [reflexivity |].
  change (String c asset ++ ".js.map") with (String c (asset ++ ".js.map")).
  cbn [ends_with]. rewrite IH, orb_false_r.
  apply String.eqb_neq. intros H.
  apply (f_equal String.length) in H.
  cbn [String.length] in H. rewrite length_append in H.
  cbn [String.length] in H. lia.
Qed.

Lemma test_js_iff_suffix_witness :
  test_js (VStr "server.js") = true
  /\ test_js (VStr ("server" ++ ".js.map")) = false.
Proof.
  split.
  - apply (proj1 (test_js_iff_suffix "server.js")). now exists "server".
  - apply (test_js_iff_suffix "server").
Defined.

(** ** Looking up stats and compilers *)

(** X2: [findStats] returns the first stats whose compilation name is
    exactly the given string, skipping every stats before it, and
    [undefined] exactly when no stats has that name (an unnamed compilation
    never matches). *)
Theorem findStats_first_exact_match (multiStats : MultiStats) (n : string) :
  (forall st,
     findStats multiStats n = Some st ->
     exists before rest,
       stats multiStats = (before ++ st :: rest)%list
       /\ compilation_name st = VStr n
       /\ forall x, In x before -> compilation_name x <> VStr n)
  /\ (findStats multiStats n = None <->
      forall x, In x (stats multiStats) -> compilation_name x <> VStr n).
Proof.
  unfold findStats. split.
  - intros st H.
    apply find_some_split in H as (before & rest & Hl & Hst & Hpre).
    exists before, rest. repeat split; auto.
    + now apply strict_eq_str_true.
    + intros x Hx. apply strict_eq_str_false. auto.
  - rewrite find_none_iff. split; intros H x Hx.
    + apply strict_eq_str_false. auto.
    + apply strict_eq_str_false. auto.
Qed.

Lemma findStats_first_exact_match_witness :
  exists before rest,
    [Scenario.client_bare; Scenario.server_ok; Scenario.server_mjs]
    = (before ++ Scenario.server_ok :: rest)%list
    /\ compilation_name Scenario.server_ok = VStr "server"
    /\ forall x, In x before -> compilation_name x <> VStr "server".
Proof.
  exact (proj1 (findStats_first_exact_match
                  {| stats := [Scenario.client_bare; Scenario.server_ok;
                               Scenario.server_mjs] |} "server")
           Scenario.server_ok eq_refl).
Defined.

(** X3: the middleware takes its output directory from the first compiler
    named [server], whatever compilers come before or after it and whatever
    the class of the controller; the output directory of the [client]
    compiler is never used. *)
Theorem construction_uses_first_server_outputPath
    (cls : class) (before rest : list Compiler) (c : Compiler) (options : value) :
  (forall x, In x before -> name x <> VStr "server") ->
  name c = VStr "server" ->
  has_compiler (before ++ c :: rest) "client" ->
  exists mw,
    webpackHotServerMiddleware (ArgController cls (before ++ c :: rest)) options
    = Ok mw
    /\ cfg_outputPath (mw_config mw) = outputPath c.
Proof.
  intros Hbefore Hc Hclient.
  unfold webpackHotServerMiddleware. rewrite guard_is_false. simpl.
  rewrite (find_skips_prefix (fun x => strict_eq_str (name x) "server")
             before rest c).
  - destruct (find_compiler_some _ _ Hclient) as [c' ->]. simpl.
    eexists. split; reflexivity.
  - intros x Hx. apply strict_eq_str_false. auto.
  - now apply strict_eq_str_true.
Qed.

Lemma construction_uses_first_server_outputPath_witness :
  exists mw,
    webpackHotServerMiddleware
      (ArgController OtherClass
         [ {| name := VStr "client"; outputPath := VStr "/public" |};
           {| name := VStr "server"; outputPath := VStr "/out" |};
           {| name := VStr "server"; outputPath := VStr "/other" |} ])
      VUndefined
    = Ok mw
    /\ cfg_outputPath (mw_config mw) = VStr "/out".
Proof.
  apply (construction_uses_first_server_outputPath OtherClass
           [ {| name := VStr "client"; outputPath := VStr "/public" |} ]
           [ {| name := VStr "server"; outputPath := VStr "/other" |} ]
           {| name := VStr "server"; outputPath := VStr "/out" |} VUndefined).
  - intros x [<- | []]. discriminate.
  - reflexivity.
  - eexists. split; [left; reflexivity | reflexivity].
Defined.

(** X4: whenever construction succeeds, the chunk name of the middleware is
    the own [chunkName] property of the options object when it has one, even
    one that is [undefined], and ['main'] otherwise, also when [options] is
    missing or is no object. *)
Theorem construction_chunkName
    (multiCompiler : controller) (options : value) (mw : middleware) :
  webpackHotServerMiddleware multiCompiler options = Ok mw ->
  cfg_chunkName (mw_config mw)
  = match options with
    | VObj props =>
        match lookup "chunkName" props with
        | Some v => v
        | None => VStr "main"
        end
    | _ => VStr "main"
    end.
Proof.
  unfold webpackHotServerMiddleware. rewrite guard_is_false.
  destruct (findCompiler multiCompiler "server") as [[[c | v] |] | e]; simpl;
    try discriminate;
    destruct (findCompiler multiCompiler "client") as [[f |] | e']; simpl;
    try discriminate.
  intros H; injection H as <-. simpl.
  unfold option_chunkName, assign_options.
  destruct options; try reflexivity.
  rewrite lookup_app. now destruct (lookup "chunkName" props).
Qed.

Lemma construction_chunkName_witness :
  cfg_chunkName
    {| cfg_outputPath := VStr "/out"; cfg_chunkName := VUndefined |}
  = VUndefined.
Proof.
  exact (construction_chunkName
           (ArgController MultiCompiler Scenario.compilers)
           (VObj [("quiet", VBool true); ("chunkName", VUndefined)])
           {| mw_config := {| cfg_outputPath := VStr "/out";
                              cfg_chunkName := VUndefined |};
              mw_state := initial |}
           eq_refl).
Defined.

Lemma findCompiler_value_found (v : value) (n : string) (f : found) :
  findCompiler (ArgValue v) n = Ok (Some f) -> exists x, f = FoundValue x.
Proof.
  simpl. destruct (get_prop v "compilers") as [c | e]; simpl; [| discriminate].
  destruct c; try discriminate.
  destruct (find_named elems n) as [[x |] | e]; simpl; try discriminate.
  intros H; injection H as <-. now exists x.
Qed.

Lemma construction_origin
    (multiCompiler : controller) (options : value) (mw : middleware) :
  webpackHotServerMiddleware multiCompiler options = Ok mw ->
  mw_state mw = initial
  /\ exists cls compilers, multiCompiler = ArgController cls compilers.
Proof.
  unfold webpackHotServerMiddleware. rewrite guard_is_false.
  destruct (findCompiler multiCompiler "server") as [[[c | x] |] | e] eqn:Hs;
    simpl; try discriminate;
    destruct (findCompiler multiCompiler "client") as [[f |] | e']; simpl;
    try discriminate.
  intros H; injection H as <-. split; [reflexivity |].
  destruct multiCompiler as [v' | cls compilers].
  - destruct (findCompiler_value_found _ _ _ Hs) as [x H]. discriminate H.
  - now exists cls, compilers.
Qed.

(** X5: a first-order value, whatever its shape, never yields a middleware:
    construction from it always throws; every middleware that construction
    returns comes from a controller with a list of compilers and starts in
    the initial state, with no renderer and no error. *)
Theorem construction_from_value_throws (v options : value) :
  (exists e, webpackHotServerMiddleware (ArgValue v) options = Throw e)
  /\ (forall multiCompiler mw,
        webpackHotServerMiddleware multiCompiler options = Ok mw ->
        mw_state mw = initial
        /\ exists cls compilers, multiCompiler = ArgController cls compilers).
Proof.
  split.
  - unfold webpackHotServerMiddleware. rewrite guard_is_false.
    destruct (findCompiler (ArgValue v) "server") as [[f |] | e] eqn:Hs;
      destruct (findCompiler (ArgValue v) "client") as [[f' |] | e'];
      cbn [bind]; try (eexists; reflexivity);
      destruct (findCompiler_value_found _ _ _ Hs) as [x ->];
      eexists; reflexivity.
  - intros multiCompiler mw. apply construction_origin.
Qed.

Lemma construction_from_value_throws_witness :
  mw_state {| mw_config := Scenario.cfg; mw_state := initial |} = initial.
Proof.
  exact (proj1 (proj2 (construction_from_value_throws VNull VUndefined)
                  (ArgController MultiCompiler Scenario.compilers)
                  {| mw_config := Scenario.cfg; mw_state := initial |}
                  eq_refl)).
Defined.

(** ** More on entry-file resolution *)



(** X7: when the manifest entry of the chunk is a list none of whose
    entries ends in [.js] (the empty list included), [getChunkFilename]
    throws a [TypeError], whatever the output directory. *)
Theorem getChunkFilename_list_without_js
    (st : Stats) (outputPath chunkName manifest : value) (assets : list value) :
  get_prop (toJson st) "assetsByChunkName" = Ok manifest ->
  get_prop manifest (to_string chunkName) = Ok (VArr assets) ->
  (forall x, In x assets -> test_js x = false) ->
  getChunkFilename st outputPath chunkName
  = Throw (TypeError "Path must be a string").
Proof.
  intros Hm He Hnone.
  unfold getChunkFilename. rewrite Hm. cbn [bind]. rewrite He. cbn [bind].
  unfold js_or. cbn [truthy]. unfold find_js.
  rewrite (proj2 (find_none_iff test_js assets) Hnone).
  apply join_with_undefined.
Qed.

Lemma getChunkFilename_list_without_js_witness :
  getChunkFilename
    (Scenario.named "server" []
       (Scenario.with_manifest (VObj [("main", VArr [VStr "style.css"])])))
    (VStr "/out") (VStr "main")
  = Throw (TypeError "Path must be a string").
Proof.
  apply (getChunkFilename_list_without_js
           (Scenario.named "server" []
              (Scenario.with_manifest (VObj [("main", VArr [VStr "style.css"])])))
           (VStr "/out") (VStr "main")
           (VObj [("main", VArr [VStr "style.css"])]) [VStr "style.css"]
           eq_refl eq_refl).
  intros x [<- | []]. reflexivity.
Defined.

Lemma getChunkFilename_throws
    (st : Stats) (outputPath chunkName e : value) :
  getChunkFilename st outputPath chunkName = Throw e -> is_TypeError e.
Proof.
  unfold getChunkFilename.
  destruct (get_prop (toJson st) "assetsByChunkName") as [m | e1] eqn:Hm;
    cbn [bind].
  - destruct (get_prop m (to_string chunkName)) as [entry | e2] eqn:He;
      cbn [bind].
    + intros H. apply join_throws in H. subst. eexists; reflexivity.
    + intros H; injection H as <-. eapply get_prop_throws, He.
  - intros H; injection H as <-. eapply get_prop_throws, Hm.
Qed.

(** X8: every exception [getChunkFilename] throws is a [TypeError]; it
    returns a filename only if the output directory is a string and the
    stats JSON and its [assetsByChunkName] are neither [undefined] nor
    [null]. *)
Theorem getChunkFilename_outcomes
    (st : Stats) (outputPath chunkName : value) :
  (forall e,
     getChunkFilename st outputPath chunkName = Throw e -> is_TypeError e)
  /\ (forall filename,
        getChunkFilename st outputPath chunkName = Ok filename ->
        (exists dir, outputPath = VStr dir)
        /\ exists manifest,
             get_prop (toJson st) "assetsByChunkName" = Ok manifest
             /\ manifest <> VUndefined /\ manifest <> VNull).
Proof.
  split; [intros e; apply getChunkFilename_throws |].
  unfold getChunkFilename.
  - intros filename.
    destruct (get_prop (toJson st) "assetsByChunkName") as [m | e1] eqn:Hm;
      cbn [bind]; [| discriminate].
    destruct (get_prop m (to_string chunkName)) as [entry | e2] eqn:He;
      cbn [bind]; [| discriminate].
    intros H. split.
    + destruct outputPath; try discriminate H. now eexists.
    + exists m. split; [reflexivity |].
      split; intros ->; discriminate He.
Qed.

Lemma getChunkFilename_outcomes_witness :
  is_TypeError (TypeError "Cannot read property 'main' of undefined")
  /\ exists dir, VStr "/out" = VStr dir.
Proof.
  split.
  - exact (proj1 (getChunkFilename_outcomes
                    (Scenario.named "server" [] (VObj []))
                    (VStr "/out") (VStr "main"))
             _ eq_refl).
  - exact (proj1 (proj2 (getChunkFilename_outcomes Scenario.server_ok
                           (VStr "/out") (VStr "main"))
                    "/out/server.js" eq_refl)).
Defined.

(** ** More on the [done] handler *)

(** The four ways through the handler, read off its branches. *)
Lemma done_cases (cfg : config) (b : build) (s : state) :
  (findStats (multi b) "server" = None
   /\ done cfg b s
      = (s, Escaped (TypeError "Cannot read property 'compilation' of undefined")))
  \/ (exists e, fails cfg b e /\ done cfg b s = (set_error s e, Returned))
  \/ (exists serverStats e,
        findStats (multi b) "server" = Some serverStats
        /\ compilation_errors serverStats = []
        /\ getChunkFilename serverStats (cfg_outputPath cfg) (cfg_chunkName cfg)
           = Throw e
        /\ done cfg b s = (set_error s (VBool false), Escaped e))
  \/ (exists r,
        succeeds cfg b r
        /\ done cfg b s
           = ({| serverRenderer := r; error := VBool false |}, Returned)).
Proof.
  destruct (findStats (multi b) "server") as [serverStats |] eqn:Hs.
  - right.
    destruct (compilation_errors serverStats) as [| first rest] eqn:He.
    + destruct (getChunkFilename serverStats (cfg_outputPath cfg)
                  (cfg_chunkName cfg)) as [filename | e] eqn:Hf.
      * destruct (load b (findStats (multi b) "client") filename)
          as [r | e] eqn:Hl.
        -- right; right. exists r.
           assert (Hok : succeeds cfg b r) by (exists serverStats, filename; auto).
           split; [exact Hok | now apply done_success].
        -- left. exists e.
           assert (Hko : fails cfg b e).
           { exists serverStats. split; [assumption |]. right.
             split; [assumption |]. now exists filename. }
           split; [exact Hko | now apply done_failure].
      * right; left. exists serverStats, e. repeat split; auto.
        eapply done_resolution_failure; eassumption.
    + left. exists first.
      assert (Hko : fails cfg b first).
      { exists serverStats. split; [assumption |]. left. now exists rest. }
      split; [exact Hko | now apply done_failure].
  - left. split; [reflexivity |]. unfold done. now rewrite Hs.
Qed.

Lemma succeeds_not_fails (cfg : config) (b : build) (r : rvalue) (e : value) :
  succeeds cfg b r -> ~ fails cfg b e.
Proof.
  intros (st & f & Hs & He & Hf & Hl) (st' & Hs' & H).
  rewrite Hs in Hs'. injection Hs' as <-.
  destruct H as [[rest H] | (_ & f' & Hf' & Hl')].
  - congruence.
  - rewrite Hf in Hf'. injection Hf' as <-. congruence.
Qed.

(** X9: an exception that leaves the [done] handler is always a
    [TypeError] and never changes [serverRenderer]; either the server stats
    are missing and the state is untouched, or the server build had no error
    and [error] has been cleared. *)
Theorem done_escape_is_TypeError
    (cfg : config) (b : build) (s s' : state) (e : value) :
  done cfg b s = (s', Escaped e) ->
  is_TypeError e
  /\ serverRenderer s' = serverRenderer s
  /\ ((findStats (multi b) "server" = None /\ s' = s)
      \/ (error s' = VBool false
          /\ exists serverStats,
               findStats (multi b) "server" = Some serverStats
               /\ compilation_errors serverStats = [])).
Proof.
  intros Hdone.
  destruct (done_cases cfg b s)
    as [[Hs H] | [(e' & _ & H) | [(st & e' & Hs & He & Hf & H) | (r & _ & H)]]];
    rewrite H in Hdone; try discriminate Hdone; injection Hdone as <- <-.
  - repeat split; [eexists; reflexivity | auto].
  - split; [| split; [reflexivity |]].
    + eapply getChunkFilename_throws, Hf.
    + right. split; [reflexivity |]. now exists st.
Qed.

Lemma done_escape_is_TypeError_witness :
  is_TypeError (TypeError "Cannot read property 'compilation' of undefined")
  /\ serverRenderer initial = serverRenderer initial.
Proof.
  destruct (done_escape_is_TypeError Scenario.cfg
              {| multi := {| stats := [Scenario.client_bare] |};
                 readFileSync := Scenario.fs "echo";
                 requireFromString := Scenario.loader |}
              initial initial
              (TypeError "Cannot read property 'compilation' of undefined")
              eq_refl) as [H1 [H2 _]].
  exact (conj H1 H2).
Defined.

(** X10: a cycle replaces [serverRenderer] only when it succeeds, and then
    by the value its factory returned, with [error] cleared; in every other
    cycle, whether the handler returns or not, [serverRenderer] is what it
    was. *)
Theorem renderer_changes_only_on_success
    (cfg : config) (b : build) (s : state) :
  (exists r,
     succeeds cfg b r
     /\ fst (done cfg b s) = {| serverRenderer := r; error := VBool false |})
  \/ ((forall r, ~ succeeds cfg b r)
      /\ serverRenderer (fst (done cfg b s)) = serverRenderer s).
Proof.
  destruct (done_cases cfg b s)
    as [[Hs H] | [(e & Hko & H) | [(st & e & Hs & He & Hf & H) | (r & Hok & H)]]];
    rewrite H; cbn [fst].
  - right. split; [| reflexivity].
    intros r (st & f & Hs' & _). congruence.
  - right. split; [| reflexivity].
    intros r Hok. exact (succeeds_not_fails _ _ _ _ Hok Hko).
  - right. split; [| reflexivity].
    intros r (st' & f & Hs' & _ & Hf' & _).
    rewrite Hs in Hs'. injection Hs' as <-. congruence.
  - left. now exists r.
Qed.

(** X12: how the handler ends never depends on the state it starts from,
    and, unless the server stats are missing, neither does the [error] it
    leaves: an error recorded by an earlier build does not survive a build
    whose server stats are found. *)
Theorem error_reflects_latest_build
    (cfg : config) (b : build) (s1 s2 : state) :
  snd (done cfg b s1) = snd (done cfg b s2)
  /\ (findStats (multi b) "server" <> None ->
      error (fst (done cfg b s1)) = error (fst (done cfg b s2))).
Proof.
  destruct (done_cases cfg b s1)
    as [[Hs H] | [(e & Hko & H) | [(st & e & Hs & He & Hf & H) | (r & Hok & H)]]];
    rewrite H; cbn [fst snd].
  - split; [| congruence]. unfold done. now rewrite Hs.
  - now rewrite (done_failure cfg b s2 e Hko).
  - now rewrite (done_resolution_failure cfg b s2 st e Hs He Hf).
  - now rewrite (done_success cfg b s2 r Hok).
Qed.

Lemma error_reflects_latest_build_witness :
  error (fst (done Scenario.cfg
                (Scenario.build_of Scenario.client_bare Scenario.server_ok "v1")
                {| serverRenderer := RData VUndefined; error := VStr "old" |}))
  = VBool false.
Proof.
  rewrite (proj2 (error_reflects_latest_build Scenario.cfg
                    (Scenario.build_of Scenario.client_bare Scenario.server_ok "v1")
                    {| serverRenderer := RData VUndefined; error := VStr "old" |}
                    initial)).
  - reflexivity.
  - discriminate.
Defined.

(** X13: when reading, evaluating or calling the entry file throws an
    [Error] object, the handler catches it and returns, [serverRenderer]
    stays as it was, and every request up to the next build is answered by
    one call of [next] with that error, nothing being written to the
    response. *)
Theorem load_error_is_forwarded
    (cfg : config) (b : build) (s : state) (serverStats : Stats)
    (filename errname message : string) :
  findStats (multi b) "server" = Some serverStats ->
  compilation_errors serverStats = [] ->
  getChunkFilename serverStats (cfg_outputPath cfg) (cfg_chunkName cfg)
  = Ok filename ->
  load b (findStats (multi b) "client") filename
  = Throw (VError errname message) ->
  done cfg b s
  = ({| serverRenderer := serverRenderer s; error := VError errname message |},
     Returned)
  /\ forall reqs,
       run cfg (Done b :: map Request reqs) s
       = map (fun _ => ToNext (VError errname message)) reqs
       /\ map (fun req => perform (ToNext (VError errname message)) req) reqs
          = map (fun _ => [CallNext (VError errname message)]) reqs.
Proof.
  intros Hs He Hf Hl.
  pose proof (done_load_failure cfg b s _ _ _ Hs He Hf Hl) as Hdone.
  split; [exact Hdone |].
  intros reqs. split; [| reflexivity].
  step_done Hdone. now rewrite run_requests.
Qed.

Lemma load_error_is_forwarded_witness :
  run Scenario.cfg
    (Done (Scenario.build_of Scenario.client_bare Scenario.server_ok "garbage")
     :: map Request [Scenario.req]) initial
  = [ToNext (VError "SyntaxError" "Unexpected token")].
Proof.
  destruct (load_error_is_forwarded Scenario.cfg
              (Scenario.build_of Scenario.client_bare Scenario.server_ok "garbage")
              initial Scenario.server_ok "/out/server.js"
              "SyntaxError" "Unexpected token"
              eq_refl eq_refl eq_refl eq_refl) as [_ H].
  exact (proj1 (H [Scenario.req])).
Defined.

(** X14: without stats for the [client] build no cycle succeeds: the call
    [clientStats.toJson()] throws inside the [try] block, so no renderer is
    installed, however good the server bundle is. *)
Theorem no_success_without_client_stats
    (cfg : config) (b : build) (r : rvalue) :
  findStats (multi b) "client" = None ->
  ~ succeeds cfg b r.
Proof.
  intros Hc (st & f & _ & _ & _ & Hl).
  rewrite Hc in Hl. unfold load in Hl.
  destruct (readFileSync b f); cbn [bind] in Hl; [| discriminate].
  destruct (requireFromString b a f); cbn [bind] in Hl; discriminate.
Qed.

Lemma no_success_without_client_stats_witness :
  ~ succeeds Scenario.cfg
      {| multi := {| stats := [Scenario.server_ok] |};
         readFileSync := Scenario.fs "echo";
         requireFromString := Scenario.loader |}
      (RData VUndefined).
Proof.
  apply no_success_without_client_stats. reflexivity.
Defined.

(** ** Invariants of runs *)

Lemma after_done (cfg : config) (b : build) (pre : list event) (s : state) :
  after cfg (builds_of (Done b :: pre)) s
  = after cfg (builds_of pre) (fst (done cfg b s)).
Proof. reflexivity. Qed.

Lemma after_request (cfg : config) (req : request) (pre : list event) (s : state) :
  after cfg (builds_of (Request req :: pre)) s = after cfg (builds_of pre) s.
Proof. reflexivity. Qed.

Lemma run_app (cfg : config) (l1 l2 : list event) (s : state) :
  run cfg (l1 ++ l2) s
  = (run cfg l1 s ++ run cfg l2 (after cfg (builds_of l1) s))%list.
Proof.
  revert s. induction l1 as [| ev l1 IH]; intros s; [reflexivity |].
  destruct ev as [b | req]; cbn [app run].
  - now rewrite IH, after_done.
  - now rewrite IH, after_request.
Qed.


(** What a cycle does to [error]. *)
Lemma done_error_cases (cfg : config) (b : build) (s : state) :
  (findStats (multi b) "server" = None
   /\ error (fst (done cfg b s)) = error s)
  \/ (findStats (multi b) "server" <> None
      /\ (fails cfg b (error (fst (done cfg b s)))
          \/ error (fst (done cfg b s)) = VBool false)).
Proof.
  destruct (done_cases cfg b s)
    as [[Hs H] | [(e & Hko & H) | [(st & e & Hs & He & Hf & H) | (r & Hok & H)]]];
    rewrite H; cbn [fst error set_error].
  - now left.
  - right. split; [| now left].
    destruct Hko as (st & Hs & _). congruence.
  - right. split; [congruence | now right].
  - right. split; [| now right].
    destruct Hok as (st & f & Hs & _). congruence.
Qed.


(** The error held after the events [pre]: that left by the latest build
    among them whose server stats were found, or the one held before
    them. *)
Lemma error_after (cfg : config) (pre : list event) (s : state) :
  (error (after cfg (builds_of pre) s) = error s
   /\ forall b, In (Done b) pre -> findStats (multi b) "server" = None)
  \/ (exists pre1 b pre2,
        pre = (pre1 ++ Done b :: pre2)%list
        /\ (fails cfg b (error (after cfg (builds_of pre) s))
            \/ error (after cfg (builds_of pre) s) = VBool false)
        /\ forall b', In (Done b') pre2 -> findStats (multi b') "server" = None).
Proof.
  revert s. induction pre as [| ev pre IH]; intros s.
  - left. split; [reflexivity | intros b []].
  - destruct ev as [b0 | req]; [rewrite after_done | rewrite after_request].
    + destruct (IH (fst (done cfg b0 s)))
        as [[He Hnone] | (pre1 & b & pre2 & -> & Hb & Hnone)].
      * destruct (done_error_cases cfg b0 s) as [[Hs He0] | [_ He0]].
        -- left. split; [congruence |].
           intros b [H | H]; [injection H as <-; exact Hs | apply Hnone, H].
        -- right. exists [], b0, pre. split; [reflexivity |].
           split; [| exact Hnone]. rewrite He. exact He0.
      * right. exists (Done b0 :: pre1), b, pre2. auto.
    + destruct (IH s) as [[He Hnone] | (pre1 & b & pre2 & -> & Hb & Hnone)].
      * left. split; [exact He |].
        intros b [H | H]; [discriminate H | apply Hnone, H].
      * right. exists (Request req :: pre1), b, pre2. auto.
Qed.



(** X16: in every run, an error that a request is passed to [next] with is
    truthy, and it is the failure of the latest build before that request
    whose server stats were found (its first compilation error, or the value
    caught while its entry file was loaded), or, when no build before the
    request had server stats, the error the run started with. *)
Theorem forwarded_error_origin
    (cfg : config) (pre post : list event) (req : request) (s : state) :
  exists d rest,
    run cfg (pre ++ Request req :: post) s = (run cfg pre s ++ d :: rest)%list
    /\ forall e,
         d = ToNext e ->
         truthy e = true
         /\ ((e = error s
              /\ forall b, In (Done b) pre -> findStats (multi b) "server" = None)
             \/ (exists pre1 b pre2,
                   pre = (pre1 ++ Done b :: pre2)%list
                   /\ fails cfg b e
                   /\ forall b', In (Done b') pre2 ->
                                 findStats (multi b') "server" = None)).
Proof.
  exists (handle (after cfg (builds_of pre) s)),
         (run cfg post (after cfg (builds_of pre) s)).
  split; [now rewrite run_app |].
  intros e Hd.
  assert (He : truthy e = true /\ error (after cfg (builds_of pre) s) = e).
  { unfold handle in Hd.
    destruct (truthy (error (after cfg (builds_of pre) s))) eqn:Ht;
      [| discriminate Hd].
    injection Hd as <-. now split. }
  destruct He as [Ht He]. split; [exact Ht |].
  rewrite <- He in *.
  destruct (error_after cfg pre s)
    as [[H Hnone] | (pre1 & b & pre2 & Hpre & [Hko | Hfalse] & Hnone)].
  - left. now split.
  - right. now exists pre1, b, pre2.
  - rewrite Hfalse in Ht. discriminate Ht.
Qed.

Lemma forwarded_error_origin_witness :
  truthy (VStr "boom") = true
  /\ ((VStr "boom" = error initial
       /\ forall b,
            In (Done b)
              [Done (Scenario.build_of Scenario.client_bare
                       (Scenario.server_failed [VStr "boom"]) "echo");
               Done {| multi := {| stats := [Scenario.client_bare] |};
                       readFileSync := Scenario.fs "echo";
                       requireFromString := Scenario.loader |}] ->
            findStats (multi b) "server" = None)
      \/ (exists pre1 b pre2,
            [Done (Scenario.build_of Scenario.client_bare
                     (Scenario.server_failed [VStr "boom"]) "echo");
             Done {| multi := {| stats := [Scenario.client_bare] |};
                     readFileSync := Scenario.fs "echo";
                     requireFromString := Scenario.loader |}]
            = (pre1 ++ Done b :: pre2)%list
            /\ fails Scenario.cfg b (VStr "boom")
            /\ forall b', In (Done b') pre2 ->
                          findStats (multi b') "server" = None)).
Proof.
  destruct (forwarded_error_origin Scenario.cfg
              [Done (Scenario.build_of Scenario.client_bare
                       (Scenario.server_failed [VStr "boom"]) "echo");
               Done {| multi := {| stats := [Scenario.client_bare] |};
                       readFileSync := Scenario.fs "echo";
                       requireFromString := Scenario.loader |}]
              [] Scenario.req initial) as (d & rest & Hrun & H).
  injection Hrun as <- _.
  exact (H (VStr "boom") eq_refl).
Defined.

(** X17: a request that arrives after construction and before any build
    has completed is sent to the unset [serverRenderer]: calling it throws a
    [TypeError] out of the request handler, and [next] is not called. *)
Theorem request_before_first_build
    (multiCompiler : controller) (options : value) (mw : middleware)
    (reqs : list request) :
  webpackHotServerMiddleware multiCompiler options = Ok mw ->
  run (mw_config mw) (map Request reqs) (mw_state mw)
  = map (fun _ => ToRenderer (RData VUndefined)) reqs
  /\ map (fun d => perform d {| url := "/" |})
       (run (mw_config mw) (map Request reqs) (mw_state mw))
     = map (fun _ => [Raise (TypeError "serverRenderer is not a function")]) reqs.
Proof.
  intros H.
  destruct (construction_origin _ _ _ H) as [-> _].
  rewrite run_requests. split; [reflexivity |].
  rewrite map_map. reflexivity.
Qed.

Lemma request_before_first_build_witness :
  run Scenario.cfg (map Request [Scenario.req]) initial
  = [ToRenderer (RData VUndefined)].
Proof.
  exact (proj1 (request_before_first_build
                  (ArgController MultiCompiler Scenario.compilers) VUndefined
                  {| mw_config := Scenario.cfg; mw_state := initial |}
                  [Scenario.req] eq_refl)).
Defined.

(** ** Unwrapping the export *)

(** X18: when the loaded module exports an object whose [default] is a
    function, that function is called with the client stats JSON only if
    the object's [__esModule] property is truthy; without it the object
    itself is called, which throws a [TypeError] inside the [try] block, and
    the function is not called. *)
Theorem load_unwraps_default_only_with_esModule
    (b : build) (clientStats : Stats) (filename code : string)
    (props : list (string * mval)) (f : factory_fn) :
  readFileSync b filename = Ok code ->
  requireFromString b code filename = Ok (MObj props) ->
  lookup "default" props = Some (MFun f) ->
  load b (Some clientStats) filename
  = if m_truthy (m_get (MObj props) "__esModule")
    then f (toJson clientStats)
    else Throw (TypeError "interopRequireDefault(...) is not a function").
Proof.
  intros Hread Hreq Hdefault.
  unfold load. rewrite Hread. cbn [bind]. rewrite Hreq. cbn [bind].
  unfold interopRequireDefault. cbn [m_truthy andb].
  destruct (m_truthy (m_get (MObj props) "__esModule")).
  - cbn [m_get]. rewrite Hdefault. reflexivity.
  - reflexivity.
Qed.

Lemma load_unwraps_default_only_with_esModule_witness :
  load {| multi := {| stats := [] |};
          readFileSync := Scenario.fs "plain";
          requireFromString :=
            fun _ _ => Ok (MObj [("default", MFun (Scenario.constant "two"))]) |}
    (Some Scenario.client_bare) "/out/server.js"
  = Throw (TypeError "interopRequireDefault(...) is not a function")
  /\ load (Scenario.build_of Scenario.client_bare Scenario.server_ok "v2")
       (Some Scenario.client_bare) "/out/server.js"
     = Ok (RFun (fun _ => [ResEnd (Some "two")])).
Proof.
  split.
  - exact (load_unwraps_default_only_with_esModule
             {| multi := {| stats := [] |};
                readFileSync := Scenario.fs "plain";
                requireFromString :=
                  fun _ _ =>
                    Ok (MObj [("default", MFun (Scenario.constant "two"))]) |}
             Scenario.client_bare "/out/server.js" "plain"
             [("default", MFun (Scenario.constant "two"))]
             (Scenario.constant "two") eq_refl eq_refl eq_refl).
  - exact (load_unwraps_default_only_with_esModule
             (Scenario.build_of Scenario.client_bare Scenario.server_ok "v2")
             Scenario.client_bare "/out/server.js" "v2"
             [("__esModule", MData (VBool true));
              ("default", MFun (Scenario.constant "two"))]
             (Scenario.constant "two") eq_refl eq_refl eq_refl).
Defined.

(** ** Source-map lookup *)

(** X19: the source-map handler that construction installs empties the
    cache between operations and never throws: for a source it answers with
    the source as [url] and the content of the file [source.map] of the
    output file system as [map], and with [undefined] when that file cannot
    be read. *)
Theorem retrieveSourceMap_never_throws
    (fs : string -> js string) (source : value) :
  emptyCacheBetweenOperations (installSourceMapSupport fs) = true
  /\ (exists answer,
        retrieveSourceMap (installSourceMapSupport fs) source = Ok answer)
  /\ (forall data,
        fs (to_string source ++ ".map") = Ok data ->
        retrieveSourceMap (installSourceMapSupport fs) source
        = Ok (VObj [("url", source); ("map", VStr data)]))
  /\ (forall e,
        fs (to_string source ++ ".map") = Throw e ->
        retrieveSourceMap (installSourceMapSupport fs) source = Ok VUndefined).
Proof.
  split; [reflexivity |].
  cbn [installSourceMapSupport retrieveSourceMap].
  destruct (fs (to_string source ++ ".map")) as [data | e] eqn:Hfs; cbn [bind].
  - split; [eexists; reflexivity |].
    split; [intros d H; injection H as <-; reflexivity | discriminate].
  - split; [eexists; reflexivity |].
    split; [discriminate | reflexivity].
Qed.

Lemma retrieveSourceMap_never_throws_witness :
  retrieveSourceMap
    (installSourceMapSupport
       (fun p => if String.eqb p "/out/server.js.map" then Ok "{}"
                 else Throw (Error "ENOENT")))
    (VStr "/out/server.js")
  = Ok (VObj [("url", VStr "/out/server.js"); ("map", VStr "{}")])
  /\ retrieveSourceMap
       (installSourceMapSupport
          (fun p => if String.eqb p "/out/server.js.map" then Ok "{}"
                    else Throw (Error "ENOENT")))
       (VStr "/out/vendor.js")
     = Ok VUndefined.
Proof.
  split.
  - apply retrieveSourceMap_never_throws. reflexivity.
  - apply (proj2 (proj2 (proj2 (retrieveSourceMap_never_throws
                                  (fun p => if String.eqb p "/out/server.js.map"
                                            then Ok "{}"
                                            else Throw (Error "ENOENT"))
                                  (VStr "/out/vendor.js"))))
             (Error "ENOENT")).
    reflexivity.
Defined.
